(** * M-Pesa STK push relay ([main.py]): embedding and verified properties

    The development follows the layout of [main.py]:
    - Python strings, JSON values and the built-ins the handlers call;
    - [format_phone_number];
    - the document store and the upstream gateway, as the handlers see them;
    - the handlers [initiate_stk_push], [mpesa_callback] and
      [check_transaction_status];
    - the properties of the specification, one theorem per claim. *)

From Stdlib Require Import ZArith Lia Ascii String.
From Stdlib Require Import Floats.SpecFloat.
From stdpp Require Import base strings gmap list pretty.

Local Open Scope string_scope.
Local Open Scope Z_scope.
#[local] Set Warnings "-register-all".

(** ** Python strings

    A Python [str] is modelled by a Rocq [string]; its characters are the
    code points 0..255.  On that range [str.isdigit] holds of the ten
    decimal digits and of the superscripts U+00B2, U+00B3 and U+00B9. *)

Definition isdigit (c : ascii) : bool :=
  let n := N_of_ascii c in
  ((48 <=? n) && (n <=? 57) || (n =? 178) || (n =? 179) || (n =? 185))%N.

(** [''.join(filter(p, s))] *)
Fixpoint str_filter (p : ascii -> bool) (s : string) : string :=
  match s with
  | EmptyString => EmptyString
  | String c r => if p c then String c (str_filter p r) else str_filter p r
  end.

Fixpoint str_forall (p : ascii -> bool) (s : string) : bool :=
  match s with
  | EmptyString => true
  | String c r => p c && str_forall p r
  end.

(** [s.isdigit()]: every character is a digit and there is at least one. *)
Definition str_isdigit (s : string) : bool :=
  match s with
  | EmptyString => false
  | _ => str_forall isdigit s
  end.

(** [s.startswith(p)] *)
Definition startswith (s p : string) : bool := String.prefix p s.

(** [s[1:]] *)
Definition str_tail (s : string) : string :=
  match s with
  | EmptyString => EmptyString
  | String _ r => r
  end.

(** ** [format_phone_number] (main.py, lines 127-136) *)

Definition format_phone_number (phone_number : string) : string :=
  let phone_number := str_filter isdigit phone_number in
  if startswith phone_number "0" then "254" +:+ str_tail phone_number
  else if negb (startswith phone_number "254") then "254" +:+ phone_number
  else phone_number.

(** The normalizer as the specification words it, by cases on the stripped
    digit string. *)
Definition normalize_spec (input : string) : string :=
  match str_filter isdigit input with
  | String "0" rest => "254" +:+ rest
  | String "2" (String "5" (String "4" rest)) =>
      String "2" (String "5" (String "4" rest))
  | digits => "254" +:+ digits
  end.

(** ** Python values

    The values the handlers manipulate: what [json.loads] returns (None,
    booleans, integers, IEEE binary64 floats, strings, lists, objects) and
    the times the store keeps.  A [VDict] lists its entries; a key is looked
    up at its first entry. *)

Inductive value : Type :=
| VNone
| VBool (b : bool)
| VInt (n : Z)
| VFloat (f : spec_float)
| VStr (s : string)
| VList (l : list value)
| VDict (d : list (string * value))
| VTimestamp (t : Z).

Fixpoint assoc (k : string) (d : list (string * value)) : option value :=
  match d with
  | [] => None
  | (k', v) :: r => if String.eqb k k' then Some v else assoc k r
  end.

(** ** Exceptions and results *)

Inductive exn : Type :=
| HTTPException (status_code : Z) (detail : string)
| RequestException (msg : string)
| JSONDecodeError
| AttributeError
| KeyError (key : string)
| TypeError
| ValueError
| OverflowError
| NotFound.

Inductive result (A : Type) : Type :=
| Ok (a : A)
| Raise (e : exn).
Arguments Ok {A} a.
Arguments Raise {A} e.

#[global] Instance result_bind : MBind result := fun A B k r =>
  match r with
  | Ok a => k a
  | Raise e => Raise e
  end.

(** ** Built-ins *)

(** [bool(v)], as [if v] and [not v] use it. *)
Definition truthy (v : value) : bool :=
  match v with
  | VNone => false
  | VBool b => b
  | VInt n => negb (n =? 0)
  | VFloat (S754_zero _) => false
  | VFloat _ => true
  | VStr EmptyString => false
  | VStr _ => true
  | VList [] => false
  | VList _ => true
  | VDict [] => false
  | VDict _ => true
  | VTimestamp _ => true
  end.

(** Whether a float is, exactly, the integer [k]. *)
Definition float_eq_Z (f : spec_float) (k : Z) : bool :=
  match f with
  | S754_zero _ => k =? 0
  | S754_finite s m e =>
      let n := if s then Z.neg m else Z.pos m in
      if 0 <=? e then n * 2 ^ e =? k else n =? k * 2 ^ (- e)
  | S754_infinity _ => false
  | S754_nan => false
  end.

(** [v == k] for an integer literal [k]: numbers compare by value and a
    boolean is the integer 0 or 1; nothing else equals an integer. *)
Definition py_eq_int (v : value) (k : Z) : bool :=
  match v with
  | VInt n => n =? k
  | VBool b => (if b then 1 else 0) =? k
  | VFloat f => float_eq_Z f k
  | _ => false
  end.

(** [v == s] for a string literal [s]. *)
Definition py_eq_str (v : value) (s : string) : bool :=
  match v with
  | VStr s' => String.eqb s' s
  | _ => false
  end.

(** [v.get(key, default)]: only a dict has [get]. *)
Definition py_get (v : value) (key : string) (default : value) : result value :=
  match v with
  | VDict d => Ok (match assoc key d with Some x => x | None => default end)
  | _ => Raise AttributeError
  end.

(** [v[key]] for a string [key]: a dict without the key raises [KeyError];
    strings and lists take integer indices only, and nothing else can be
    indexed. *)
Definition py_getitem (v : value) (key : string) : result value :=
  match v with
  | VDict d => match assoc key d with Some x => Ok x | None => Raise (KeyError key) end
  | _ => Raise TypeError
  end.

(** [key in v], applied in [main.py] only to a value on which [get] has
    succeeded, that is to a dict. *)
Definition py_contains (key : string) (v : value) : result bool :=
  match v with
  | VDict d => Ok (match assoc key d with Some _ => true | None => false end)
  | _ => Raise TypeError
  end.

(** The elements [for item in v] visits: those of a list, the keys of a dict,
    the characters of a string. *)
Definition py_iter (v : value) : result (list value) :=
  match v with
  | VList l => Ok l
  | VDict d => Ok (map (fun kv => VStr (fst kv)) d)
  | VStr s => Ok (map (fun c => VStr (String c EmptyString)) (list_ascii_of_string s))
  | _ => Raise TypeError
  end.

(** [isinstance(v, (int, float))]; [bool] is a subclass of [int]. *)
Definition isinstance_int_float (v : value) : bool :=
  match v with
  | VBool _ | VInt _ | VFloat _ => true
  | _ => false
  end.

(** [float(n)] for an integer: the nearest binary64, or [OverflowError]. *)
Definition float_of_Z (n : Z) : result spec_float :=
  match binary_normalize 53 1024 n 0 false with
  | S754_infinity _ => Raise OverflowError
  | f => Ok f
  end.

(** [int(f)] for a float: truncation towards zero. *)
Definition int_of_float (f : spec_float) : result Z :=
  match f with
  | S754_zero _ => Ok 0
  | S754_finite s m e =>
      let a := if 0 <=? e then Z.pos m * 2 ^ e else Z.pos m / 2 ^ (- e) in
      Ok (if s then - a else a)
  | S754_infinity _ => Raise OverflowError
  | S754_nan => Raise ValueError
  end.

(** [int(v)] for [v] an instance of [int] or [float]. *)
Definition py_int (v : value) : result Z :=
  match v with
  | VBool b => Ok (if b then 1 else 0)
  | VInt n => Ok n
  | VFloat f => int_of_float f
  | _ => Raise TypeError
  end.

(** Text conversions of the Python runtime that [main.py] calls and that are
    kept abstract: [float(s)] of a string ([None] when it raises
    [ValueError]), [str(v)] of a value that is not None, a boolean, an
    integer or a string, and [str(e)] of an exception. *)
Record runtime : Type := {
  float_of_str : string -> option spec_float;
  repr_value : value -> string;
  exc_str : exn -> string
}.

Section Runtime.

Variable rt : runtime.

(** [float(v)] *)
Definition py_float (v : value) : result spec_float :=
  match v with
  | VBool b => Ok (if b then binary_normalize 53 1024 1 0 false else S754_zero false)
  | VInt n => float_of_Z n
  | VFloat f => Ok f
  | VStr s => match float_of_str rt s with Some f => Ok f | None => Raise ValueError end
  | _ => Raise TypeError
  end.

(** [str(v)] *)
Definition py_str (v : value) : string :=
  match v with
  | VNone => "None"
  | VBool true => "True"
  | VBool false => "False"
  | VInt n => pretty n
  | VStr s => s
  | _ => repr_value rt v
  end.

(** ** The world of a handler: the document store and the gateway

    The store is the one collection ['mpesa_transactions']: documents, each a
    map from field names to values, keyed by document id.  It is an external
    service; it is modelled by what its client documents of [get], [set] and
    [update], and is taken to accept every value.  Requests to the gateway
    are recorded by endpoint; what the gateway answers is given by the
    environment. *)

Inductive upstream_call : Type :=
| AuthGet
| StkPushPost (phone_number : string) (amount : Z)
| QueryPost (checkout_request_id : string).

Record world : Type := World {
  db : gmap string (gmap string value);
  calls : list upstream_call
}.

(** What [requests.get]/[requests.post], [raise_for_status()] and [.json()]
    yield together: a [RequestException] or the decoded JSON body. *)
Inductive reply : Type :=
| ReplyError (msg : string)
| ReplyJson (body : value).

(** The environment of one request: the configuration read with [os.getenv],
    the gateway's answers, the store's clock and the id the store generates
    for [document(None)]. *)
Record environ : Type := {
  CONSUMER_KEY : option string;
  CONSUMER_SECRET : option string;
  PASS_KEY : option string;
  auth_reply : reply;
  stk_push_reply : reply;
  query_reply : reply;
  server_time : Z;
  auto_id : string
}.

(** [bool(x)] for what [os.getenv] returned. *)
Definition env_truthy (x : option string) : bool :=
  match x with
  | Some (String _ _) => true
  | _ => false
  end.

(** Handlers run in a state and exception monad over the world. *)
Definition M (A : Type) : Type := world -> result A * world.

Definition ret {A} (a : A) : M A := fun w => (Ok a, w).
Definition raise {A} (e : exn) : M A := fun w => (Raise e, w).
Definition lift {A} (r : result A) : M A := fun w => (r, w).

#[global] Instance M_bind : MBind M := fun A B k m w =>
  match m w with
  | (Ok a, w') => k a w'
  | (Raise e, w') => (Raise e, w')
  end.

(** [try: m except ... as e: h e] *)
Definition try_except {A} (m : M A) (h : exn -> M A) : M A := fun w =>
  match m w with
  | (Ok a, w') => (Ok a, w')
  | (Raise e, w') => h e w'
  end.

(** A request to the gateway. *)
Definition upstream (c : upstream_call) (r : reply) : M value := fun w =>
  let w' := {| db := db w; calls := calls w ++ [c] |} in
  match r with
  | ReplyError msg => (Raise (RequestException msg), w')
  | ReplyJson body => (Ok body, w')
  end.

(** What a handler writes to a field: a value, or the sentinel
    [firestore.SERVER_TIMESTAMP], which the store replaces by its clock. *)
Inductive write_value : Type :=
| Val (v : value)
| SERVER_TIMESTAMP.

Definition resolve_timestamp (now : Z) (x : write_value) : value :=
  match x with
  | Val v => v
  | SERVER_TIMESTAMP => VTimestamp now
  end.

Definition resolve_timestamps (now : Z) (fields : gmap string write_value)
  : gmap string value :=
  resolve_timestamp now <$> fields.

(** [db.collection('mpesa_transactions').document(document_id)]: [None] asks
    for a generated id, and the client raises on an id that is not a string
    (the handlers never tell that exception from another). *)
Definition document (env : environ) (document_id : value) : result string :=
  match document_id with
  | VStr s => Ok s
  | VNone => Ok (auto_id env)
  | _ => Raise ValueError
  end.

(** [ref.get()]: [None] when the snapshot does not exist, else [to_dict()]. *)
Definition doc_get (id : string) : M (option (gmap string value)) := fun w =>
  (Ok (db w !! id), w).

(** [ref.set(data)]: creates or overwrites the document. *)
Definition doc_set (env : environ) (id : string) (data : gmap string write_value)
  : M unit := fun w =>
  (Ok tt, {| db := <[id := resolve_timestamps (server_time env) data]> (db w);
             calls := calls w |}).

(** [ref.update(fields)]: merges the fields into an existing document, and
    fails with [NotFound] when there is none. *)
Definition doc_update (env : environ) (id : string) (fields : gmap string write_value)
  : M unit := fun w =>
  match db w !! id with
  | Some old =>
      (Ok tt, {| db := <[id := resolve_timestamps (server_time env) fields ∪ old]> (db w);
                 calls := calls w |})
  | None => (Raise NotFound, w)
  end.

(** [d.get(key, default)] on a stored document. *)
Definition dget (d : gmap string value) (key : string) (default : value) : value :=
  match d !! key with
  | Some v => v
  | None => default
  end.

(** ** Request and response models *)

Record STKPushRequest : Type := {
  phone_number : string;
  amount : spec_float;
  account_reference : option string;
  transaction_desc : option string
}.

Record TransactionStatusRequest : Type := {
  checkout_request_id : string
}.

Record APIResponse : Type := {
  success : bool;
  message : string;
  data : option (list (string * value))
}.

Definition opt_str (x : option string) : value :=
  match x with
  | Some s => VStr s
  | None => VNone
  end.

(** ** [get_access_token] and [generate_password] (lines 83-125)

    The token and the password are text sent to the gateway, which the model
    does not interpret; what remains of [generate_password] is its guard. *)

Definition get_access_token (env : environ) : M value :=
  if negb (env_truthy (CONSUMER_KEY env)) || negb (env_truthy (CONSUMER_SECRET env)) then
    raise (HTTPException 500 "M-Pesa credentials not configured")
  else
    try_except
      (response ← upstream AuthGet (auth_reply env);
       access_token ← lift (py_get response "access_token" VNone);
       if negb (truthy access_token) then
         raise (HTTPException 500 "Failed to get access token from M-Pesa")
       else ret access_token)
      (fun e =>
         match e with
         | RequestException _ =>
             raise (HTTPException 500 ("Error getting access token: " +:+ exc_str rt e))
         | _ => raise e
         end).

Definition generate_password (env : environ) : M unit :=
  if negb (env_truthy (PASS_KEY env)) then
    raise (HTTPException 500 "M-Pesa Pass Key not configured")
  else ret tt.

(** ** [initiate_stk_push] (lines 143-238) *)

Definition initiate_stk_push_body (env : environ) (request : STKPushRequest) : M APIResponse :=
  let phone_number := format_phone_number (phone_number request) in
  amount ← lift (int_of_float (amount request));
  if negb ((String.length phone_number =? 12)%nat && str_isdigit phone_number) then
    raise (HTTPException 400
             "Invalid phone number format. Use format: 0722000000 or 254722000000")
  else if amount <=? 0 then
    raise (HTTPException 400 "Amount must be greater than 0")
  else
    _ ← generate_password env;
    access_token ← get_access_token env;
    result ← upstream (StkPushPost phone_number amount) (stk_push_reply env);
    response_code ← lift (py_get result "ResponseCode" VNone);
    if py_eq_str response_code "0" then
      checkout_id ← lift (py_get result "CheckoutRequestID" VNone);
      merchant_request_id ← lift (py_get result "MerchantRequestID" VNone);
      let transaction_data : gmap string write_value :=
        list_to_map
          [("phone_number", Val (VStr phone_number));
           ("amount", Val (VInt amount));
           ("timestamp", SERVER_TIMESTAMP);
           ("checkout_request_id", Val checkout_id);
           ("status", Val (VStr "pending"));
           ("merchant_request_id", Val merchant_request_id);
           ("account_reference", Val (opt_str (account_reference request)));
           ("transaction_desc", Val (opt_str (transaction_desc request)))] in
      ref ← lift (document env checkout_id);
      _ ← doc_set env ref transaction_data;
      ret {| success := true;
             message := "STK push request sent successfully";
             data := Some [("checkout_request_id", checkout_id);
                           ("merchant_request_id", merchant_request_id);
                           ("phone_number", VStr phone_number);
                           ("amount", VInt amount)] |}
    else
      error_message ← lift (py_get result "errorMessage" (VStr "Unknown error"));
      raise (HTTPException 400 ("STK push request failed: " +:+ py_str error_message)).

Definition initiate_stk_push (env : environ) (request : STKPushRequest) : M APIResponse :=
  try_except (initiate_stk_push_body env request)
    (fun e =>
       match e with
       | RequestException _ =>
           raise (HTTPException 500 ("Failed to communicate with M-Pesa API: " +:+ exc_str rt e))
       | _ =>
           raise (HTTPException 500 ("An unexpected error occurred: " +:+ exc_str rt e))
       end).

(** ** [mpesa_callback] (lines 240-326) *)

(** The body of a request: [await request.json()] raises when it is not JSON. *)
Inductive request_body : Type :=
| BodyInvalid
| BodyJson (v : value).

Definition request_json (request : request_body) : result value :=
  match request with
  | BodyInvalid => Raise JSONDecodeError
  | BodyJson v => Ok v
  end.

(** The failure branch, lines 300-307. *)
Definition callback_failure_status (result_code : value) : string :=
  if py_eq_int result_code 1032 then "cancelled"
  else if py_eq_int result_code 1037 then "expired"
  else if py_eq_int result_code 1 then "insufficient_funds"
  else "failed".

(** One turn of the loop over the metadata items, lines 281-297. *)
Definition callback_item (transaction_update : gmap string write_value) (item : value)
  : result (gmap string write_value) :=
  name ← py_getitem item "Name";
  if py_eq_str name "Amount" then
    v ← py_getitem item "Value";
    f ← py_float v;
    Ok (<["confirmed_amount" := Val (VFloat f)]> transaction_update)
  else if py_eq_str name "MpesaReceiptNumber" then
    v ← py_getitem item "Value";
    Ok (<["mpesa_receipt_number" := Val (VStr (py_str v))]> transaction_update)
  else if py_eq_str name "TransactionDate" then
    v ← py_getitem item "Value";
    Ok (<["transaction_date" := Val (VStr (py_str v))]> transaction_update)
  else if py_eq_str name "PhoneNumber" then
    phone_value ← py_getitem item "Value";
    if isinstance_int_float phone_value then
      n ← py_int phone_value;
      Ok (<["confirmed_phone_number" := Val (VStr (py_str (VInt n)))]> transaction_update)
    else
      Ok (<["confirmed_phone_number" := Val (VStr (py_str phone_value))]> transaction_update)
  else Ok transaction_update.

(** [for item in items: ...], stopping at the first exception. *)
Fixpoint callback_items (transaction_update : gmap string write_value) (items : list value)
  : result (gmap string write_value) :=
  match items with
  | [] => Ok transaction_update
  | item :: rest =>
      transaction_update ← callback_item transaction_update item;
      callback_items transaction_update rest
  end.

(** Lines 245-254: what the handler reads from the payload. *)
Record callback_fields : Type := {
  cb_data : value;
  cb_stk : value;
  cb_checkout_request_id : value;
  cb_result_code : value;
  cb_result_desc : value
}.

Definition callback_extract (request : request_body) : result callback_fields :=
  callback_data ← request_json request;
  body ← py_get callback_data "Body" (VDict []);
  stkCallback ← py_get body "stkCallback" (VDict []);
  checkout_request_id ← py_get stkCallback "CheckoutRequestID" VNone;
  result_code ← py_get stkCallback "ResultCode" VNone;
  result_desc ← py_get stkCallback "ResultDesc" VNone;
  Ok {| cb_data := callback_data;
        cb_stk := stkCallback;
        cb_checkout_request_id := checkout_request_id;
        cb_result_code := result_code;
        cb_result_desc := result_desc |}.

(** Lines 263-269: the default update. *)
Definition callback_default_update (c : callback_fields) : gmap string write_value :=
  list_to_map
    [("result_code", Val (cb_result_code c));
     ("result_description", Val (cb_result_desc c));
     ("callback_received", Val (VBool true));
     ("callback_timestamp", SERVER_TIMESTAMP);
     ("raw_callback", Val (cb_data c))].

(** Lines 263-307: the update computed from the callback. *)
Definition callback_update (c : callback_fields) : result (gmap string write_value) :=
  let transaction_update := callback_default_update c in
  if py_eq_int (cb_result_code c) 0 then
    let transaction_update := <["status" := Val (VStr "completed")]> transaction_update in
    has_metadata ← py_contains "CallbackMetadata" (cb_stk c);
    if (has_metadata : bool) then
      metadata ← py_getitem (cb_stk c) "CallbackMetadata";
      items ← py_get metadata "Item" (VList []);
      items ← py_iter items;
      callback_items transaction_update items
    else Ok transaction_update
  else
    Ok (<["status" := Val (VStr (callback_failure_status (cb_result_code c)))]>
          transaction_update).

Definition ack (code : Z) (desc : string) : value :=
  VDict [("ResultCode", VInt code); ("ResultDesc", VStr desc)].

Definition mpesa_callback_body (env : environ) (request : request_body) : M value :=
  c ← lift (callback_extract request);
  if negb (truthy (cb_checkout_request_id c)) then
    ret (ack 1 "Invalid callback data")
  else
    transaction_ref ← lift (document env (cb_checkout_request_id c));
    transaction_update ← lift (callback_update c);
    _ ← doc_update env transaction_ref transaction_update;
    ret (ack 0 "Callback processed successfully").

Definition mpesa_callback (env : environ) (request : request_body) : M value :=
  try_except (mpesa_callback_body env request)
    (fun e => ret (ack 1 "Callback processing failed")).

(** ** [check_transaction_status] (lines 329-450) *)

(** The mapping of the query's result code, lines 408-419. *)
Definition query_status (result_code : value) : string :=
  if py_eq_int result_code 0 then "completed"
  else if py_eq_int result_code 1032 then "cancelled"
  else if py_eq_int result_code 1037 then "expired"
  else if py_eq_int result_code 1031 then "cancelled"
  else if py_eq_int result_code 1 then "insufficient_funds"
  else "failed".

Definition check_transaction_status_body (env : environ) (request : TransactionStatusRequest)
  : M APIResponse :=
  let checkout_request_id := checkout_request_id request in
  transaction_doc ← doc_get checkout_request_id;
  match transaction_doc with
  | None => raise (HTTPException 404 "Transaction not found")
  | Some transaction_data =>
      if truthy (dget transaction_data "callback_received" (VBool false)) then
        ret {| success := true;
               message := "Transaction status retrieved from database";
               data := Some
                 [("checkout_request_id", VStr checkout_request_id);
                  ("status", dget transaction_data "status" VNone);
                  ("result_code", dget transaction_data "result_code" VNone);
                  ("result_description", dget transaction_data "result_description" VNone);
                  ("receipt_number", dget transaction_data "mpesa_receipt_number" VNone);
                  ("amount", dget transaction_data "confirmed_amount"
                               (dget transaction_data "amount" VNone));
                  ("phone_number", dget transaction_data "confirmed_phone_number"
                                     (dget transaction_data "phone_number" VNone));
                  ("transaction_date", dget transaction_data "transaction_date" VNone)] |}
      else
        let merchant_request_id := dget transaction_data "merchant_request_id" VNone in
        if negb (truthy merchant_request_id) then
          raise (HTTPException 400 "Merchant request ID not found for this transaction")
        else
          access_token ← get_access_token env;
          result ← upstream (QueryPost checkout_request_id) (query_reply env);
          result_code ← lift (py_get result "ResultCode" VNone);
          result_desc ← lift (py_get result "ResultDesc" VNone);
          let status_update : gmap string write_value :=
            <["status" := Val (VStr (query_status result_code))]>
              (list_to_map
                 [("query_result_code", Val result_code);
                  ("query_result_description", Val result_desc);
                  ("last_queried", SERVER_TIMESTAMP)]) in
          _ ← doc_update env checkout_request_id status_update;
          ret {| success := true;
                 message := "Transaction status retrieved from M-Pesa API";
                 data := Some
                   [("checkout_request_id", VStr checkout_request_id);
                    ("status", VStr (query_status result_code));
                    ("result_code", result_code);
                    ("result_description", result_desc);
                    ("amount", dget transaction_data "amount" VNone);
                    ("phone_number", dget transaction_data "phone_number" VNone)] |}
  end.

Definition check_transaction_status (env : environ) (request : TransactionStatusRequest)
  : M APIResponse :=
  try_except (check_transaction_status_body env request)
    (fun e =>
       match e with
       | RequestException _ =>
           raise (HTTPException 500
                    ("Failed to communicate with M-Pesa API: " +:+ exc_str rt e))
       | _ =>
           raise (HTTPException 500 ("An unexpected error occurred: " +:+ exc_str rt e))
       end).

(** ** Notions the properties are stated with *)

(** Field [f] of the record [id], when the store holds both. *)
Definition stored_field (w : world) (id f : string) : option value :=
  match db w !! id with
  | Some d => d !! f
  | None => None
  end.

(** The fields that hold a transaction's outcome. *)
Definition terminal_fields : list string :=
  ["status"; "result_code"; "result_description"; "confirmed_amount";
   "mpesa_receipt_number"; "transaction_date"; "confirmed_phone_number";
   "callback_received"].

(** The only sentinel in an update is the one of ["callback_timestamp"]. *)
Definition sentinel_only_at (k : string) (m : gmap string write_value) : Prop :=
  forall f, m !! f = Some SERVER_TIMESTAMP -> f = k.






Definition metadata_field_names : list string :=
  ["confirmed_amount"; "mpesa_receipt_number"; "transaction_date";
   "confirmed_phone_number"].








(** The handler's check of a normalized number (line 152). *)
Definition phone_ok (phone_number : string) : bool :=
  (String.length phone_number =? 12)%nat && str_isdigit phone_number.

End Runtime.

(** ** The specification's status table *)

Definition codeToStatus (resultCode : Z) : string :=
  if resultCode =? 0 then "completed"
  else if resultCode =? 1 then "insufficient_funds"
  else if resultCode =? 1032 then "cancelled"
  else if resultCode =? 1037 then "expired"
  else if resultCode =? 1031 then "cancelled"
  else "failed".

(** ** Sample data: a pending record and the gateway's callback for it *)

Definition pending_record : gmap string value :=
  list_to_map
    [("phone_number", VStr "254722000000");
     ("amount", VInt 100);
     ("timestamp", VTimestamp 0);
     ("checkout_request_id", VStr "ws_CO_1");
     ("status", VStr "pending");
     ("merchant_request_id", VStr "29115-34620561-1");
     ("account_reference", VStr "CompanyXYZ");
     ("transaction_desc", VStr "Payment for services")].

Definition callback_payload (id : string) (code : Z) (desc : string)
    (rest : list (string * value)) : request_body :=
  BodyJson
    (VDict
       [("Body",
         VDict
           [("stkCallback",
             VDict
               ([("MerchantRequestID", VStr "29115-34620561-1");
                 ("CheckoutRequestID", VStr id);
                 ("ResultCode", VInt code);
                 ("ResultDesc", VStr desc)] ++ rest))])]).

Definition with_metadata (items : list value) : list (string * value) :=
  [("CallbackMetadata", VDict [("Item", VList items)])].

Definition named_item (name : string) (v : value) : value :=
  VDict [("Name", VStr name); ("Value", v)].

Definition pending_world : world :=
  {| db := {["ws_CO_1" := pending_record]}; calls := [] |}.

(** Result code 0 with Amount = 100, MpesaReceiptNumber = "ABC123", a
    balance item without a value and PhoneNumber = 254722000000. *)
Definition success_items : list value :=
  [named_item "Amount" (VInt 100);
   named_item "MpesaReceiptNumber" (VStr "ABC123");
   VDict [("Name", VStr "Balance")];
   named_item "TransactionDate" (VInt 20191219102115);
   named_item "PhoneNumber" (VInt 254722000000)].

Definition success_callback : request_body :=
  callback_payload "ws_CO_1" 0 "The service request is processed successfully."
    (with_metadata success_items).

(** The callback of a push the user cancelled. *)
Definition cancelled_callback : request_body :=
  callback_payload "ws_CO_1" 1032 "Request cancelled by user" [].





Definition status_request : TransactionStatusRequest :=
  {| checkout_request_id := "ws_CO_1" |}.

(** A working environment: configured credentials, a token, and a query
    that reports code 1032. *)
Definition sample_env : environ :=
  {| CONSUMER_KEY := Some "key";
     CONSUMER_SECRET := Some "secret";
     PASS_KEY := Some "passkey";
     auth_reply :=
       ReplyJson (VDict [("access_token", VStr "token"); ("expires_in", VStr "3599")]);
     stk_push_reply :=
       ReplyJson (VDict [("MerchantRequestID", VStr "29115-34620561-1");
                         ("CheckoutRequestID", VStr "ws_CO_1");
                         ("ResponseCode", VStr "0");
                         ("ResponseDescription", VStr "Success. Request accepted")]);
     query_reply :=
       ReplyJson (VDict [("ResponseCode", VStr "0");
                         ("ResultCode", VInt 1032);
                         ("ResultDesc", VStr "Request cancelled by user")]);
     server_time := 1700000000;
     auto_id := "generated-document-id" |}.

(** 100.0 as a binary64: 7036874417766400 * 2^-46. *)
Definition float_100 : spec_float := S754_finite false 7036874417766400 (-46).

(** 0.5: it truncates to 0. *)
Definition float_half : spec_float := S754_finite false 4503599627370496 (-53).

Definition push_request (phone : string) (amount : spec_float) : STKPushRequest :=
  {| phone_number := phone;
     amount := amount;
     account_reference := Some "CompanyXYZ";
     transaction_desc := Some "Payment for services" |}.

Definition empty_world : world := {| db := ∅; calls := [] |}.

(** ** [get_transaction] (lines 451-484) and [get_all_transactions]
    (lines 486-533)

    Two more things are left to the environment here: the text
    [datetime.isoformat()] gives for a stored time, and the store's query
    engine, which answers a chain of [where], [order_by] and [limit] with the
    documents it selects, in its order, or raises. *)

(** The fields that hold times. *)
Definition time_fields : list string :=
  ["timestamp"; "callback_timestamp"; "last_queried"].

Inductive query_op : Type :=
| Where (field : string) (v : value)
| OrderByDescending (field : string)
| Limit (n : Z).

Section Listing.

Variable rt : runtime.
Variable isoformat : Z -> string.
Variable stream :
  list query_op -> gmap string (gmap string value) ->
  result (list (string * gmap string value)).

(** [if key in d and d[key]: d[key] = d[key].isoformat()]: of the values of
    the model only a stored time has [isoformat]. *)
Definition isoformat_field (key : string) (transaction_data : gmap string value)
  : result (gmap string value) :=
  match transaction_data !! key with
  | Some v =>
      if truthy v then
        match v with
        | VTimestamp t => Ok (<[key := VStr (isoformat t)]> transaction_data)
        | _ => Raise AttributeError
        end
      else Ok transaction_data
  | None => Ok transaction_data
  end.

(** Lines 467-472 and 514-519. *)
Definition isoformat_fields (transaction_data : gmap string value)
  : result (gmap string value) :=
  transaction_data ← isoformat_field "timestamp" transaction_data;
  transaction_data ← isoformat_field "callback_timestamp" transaction_data;
  isoformat_field "last_queried" transaction_data.

Definition get_transaction_body (checkout_request_id : string) : M APIResponse :=
  transaction_doc ← doc_get checkout_request_id;
  match transaction_doc with
  | None => raise (HTTPException 404 "Transaction not found")
  | Some transaction_data =>
      transaction_data ← lift (isoformat_fields transaction_data);
      ret {| success := true;
             message := "Transaction retrieved successfully";
             data := Some (map_to_list transaction_data) |}
  end.

Definition get_transaction (checkout_request_id : string) : M APIResponse :=
  try_except (get_transaction_body checkout_request_id)
    (fun e =>
       raise (HTTPException 500
                ("An error occurred while retrieving the transaction: " +:+ exc_str rt e))).

(** [if x: query = query.where(field, '==', normalize(x))] *)
Definition query_filter (field : string) (x : option string) (normalize : string -> string)
  : list query_op :=
  match x with
  | Some s => if env_truthy x then [Where field (VStr (normalize s))] else []
  | None => []
  end.

(** Lines 494-504: the query the handler builds. *)
Definition transactions_query (limit : Z) (status phone_number : option string)
  : list query_op :=
  query_filter "status" status (fun s => s) ++
  query_filter "phone_number" phone_number format_phone_number ++
  [OrderByDescending "timestamp"; Limit limit].

(** One turn of the loop, lines 510-521. *)
Definition listed_transaction (doc : string * gmap string value) : result value :=
  let transaction_data := <["id" := VStr doc.1]> doc.2 in
  transaction_data ← isoformat_fields transaction_data;
  Ok (VDict (map_to_list transaction_data)).

Fixpoint listed_transactions (docs : list (string * gmap string value))
  : result (list value) :=
  match docs with
  | [] => Ok []
  | doc :: rest =>
      transaction ← listed_transaction doc;
      transactions ← listed_transactions rest;
      Ok (transaction :: transactions)
  end.

Definition get_all_transactions_body (limit : Z) (status phone_number : option string)
  : M APIResponse := fun w =>
  (docs ← stream (transactions_query limit status phone_number) (db w);
   transactions ← listed_transactions docs;
   Ok {| success := true;
         message := "Retrieved " +:+ pretty (Z.of_nat (length transactions))
                    +:+ " transactions";
         data := Some [("transactions", VList transactions)] |},
   w).

Definition get_all_transactions (limit : Z) (status phone_number : option string)
  : M APIResponse :=
  try_except (get_all_transactions_body limit status phone_number)
    (fun e =>
       raise (HTTPException 500
                ("An error occurred while retrieving transactions: " +:+ exc_str rt e))).

(** What a time field shows once converted. *)
Definition isoformat_value (v : value) : value :=
  match v with
  | VTimestamp t => VStr (isoformat t)
  | _ => v
  end.

(** What field [k] of a record shows in a response. *)
Definition shown (d : gmap string value) (k : string) : option value :=
  if bool_decide (k ∈ time_fields) then isoformat_value <$> d !! k
  else d !! k.

(** What the entry [t] of a listing shows of the document [doc]: the
    document's id under [id], the record's other fields as [shown]. *)
Definition lists (doc : string * gmap string value) (t : value) : Prop :=
  exists entries,
    t = VDict entries /\
    assoc "id" entries = Some (VStr doc.1) /\
    forall k, k <> "id" -> assoc k entries = shown doc.2 k.

(** The handlers, as calls to serve. *)
Inductive handler_call : Type :=
| InitiateStkPush (request : STKPushRequest)
| MpesaCallback (request : request_body)
| CheckTransactionStatus (request : TransactionStatusRequest)
| GetTransaction (checkout_request_id : string)
| GetAllTransactions (limit : Z) (status phone_number : option string).

(** The world after one call is served.  The handlers call the gateway and
    the store synchronously, so within one event loop no handler suspends
    between its reads and its write, and calls are served one after
    another. *)
Definition handle (env : environ) (call : handler_call) (w : world) : world :=
  match call with
  | InitiateStkPush request => (initiate_stk_push rt env request w).2
  | MpesaCallback request => (mpesa_callback rt env request w).2
  | CheckTransactionStatus request => (check_transaction_status rt env request w).2
  | GetTransaction checkout_request_id => (get_transaction checkout_request_id w).2
  | GetAllTransactions limit status phone_number =>
      (get_all_transactions limit status phone_number w).2
  end.

(** The world after a sequence of calls, each in the environment of its
    time. *)
Fixpoint serve (served : list (environ * handler_call)) (w : world) : world :=
  match served with
  | [] => w
  | (env, call) :: rest => serve rest (handle env call w)
  end.

End Listing.

(** ** Notions the further properties are stated with *)

(** The statuses of a finished transaction. *)
Definition final_statuses : list string :=
  ["completed"; "cancelled"; "expired"; "insufficient_funds"; "failed"].

(** How many digits an input must have for its normalization to have
    twelve. *)
Definition accepted_length (digits : string) : nat :=
  if startswith digits "0" then 10%nat
  else if startswith digits "254" then 12%nat
  else 9%nat.

(** The fields [initiate_stk_push] gives a record. *)
Definition creation_fields : list string :=
  ["phone_number"; "amount"; "timestamp"; "checkout_request_id";
   "merchant_request_id"; "account_reference"; "transaction_desc"].

(** The fields only a callback writes. *)
Definition callback_only_fields : list string :=
  ["result_code"; "result_description"; "callback_received"; "callback_timestamp";
   "raw_callback"; "confirmed_amount"; "mpesa_receipt_number"; "transaction_date";
   "confirmed_phone_number"].

(** The fields only a status query writes. *)
Definition query_only_fields : list string :=
  ["query_result_code"; "query_result_description"; "last_queried"].


(** A time field that is present holds a stored time or a false value. *)
Definition time_ok (v : option value) : bool :=
  match v with
  | Some (VTimestamp _) => true
  | Some v => negb (truthy v)
  | None => true
  end.

Definition times_ok (d : gmap string value) : bool :=
  forallb (fun key => time_ok (d !! key)) time_fields.

(** The six statuses of the data model. *)
Definition canonical_statuses : list string := "pending" :: final_statuses.

(** A record as the data model has it: a canonical status, a positive
    integer amount, a twelve-digit phone number, times in the time fields,
    and no pending status once a callback was received. *)
Definition record_ok (d : gmap string value) : Prop :=
  (exists status, d !! "status" = Some (VStr status) /\ status ∈ canonical_statuses) /\
  (exists a, d !! "amount" = Some (VInt a) /\ 0 < a) /\
  (exists phone, d !! "phone_number" = Some (VStr phone) /\ phone_ok phone = true) /\
  times_ok d = true /\
  (truthy (dget d "callback_received" (VBool false)) = false \/
   d !! "status" <> Some (VStr "pending")).

Definition store_ok (w : world) : Prop :=
  forall id d, db w !! id = Some d -> record_ok d.

(** The record [initiate_stk_push] stores, as the store keeps it. *)
Definition pending_data (env : environ) (request : STKPushRequest) (a : Z)
    (checkout merchant : value) : gmap string value :=
  resolve_timestamps (server_time env)
    (list_to_map
       [("phone_number", Val (VStr (format_phone_number (phone_number request))));
        ("amount", Val (VInt a));
        ("timestamp", SERVER_TIMESTAMP);
        ("checkout_request_id", Val checkout);
        ("status", Val (VStr "pending"));
        ("merchant_request_id", Val merchant);
        ("account_reference", Val (opt_str (account_reference request)));
        ("transaction_desc", Val (opt_str (transaction_desc request)))]).

(** * Properties *)

(** ** Strings and the phone number normalizer *)

Lemma str_filter_forall p s : str_forall p (str_filter p s) = true.
Proof.
  induction s as [|c r IH]; simpl; [reflexivity|].
  destruct (p c) eqn:Hc; simpl; [rewrite Hc|]; exact IH.
Qed.

Lemma str_filter_id p s : str_forall p s = true -> str_filter p s = s.
Proof.
  induction s as [|c r IH]; simpl; [reflexivity|].
  intros [Hc Hr]%andb_prop. rewrite Hc, IH; [reflexivity | exact Hr].
Qed.

Lemma format_phone_number_refines s : format_phone_number s = normalize_spec s.
Proof.
  unfold format_phone_number, normalize_spec, startswith.
  destruct (str_filter isdigit s) as [|c r]; [reflexivity|].
  destruct c as [[] [] [] [] [] [] [] []]; try reflexivity.
  - destruct r as [|c r]; [reflexivity|].
    destruct c as [[] [] [] [] [] [] [] []]; try reflexivity.
    destruct r as [|c r]; [reflexivity|].
    destruct c as [[] [] [] [] [] [] [] []]; try reflexivity.
    destruct r; reflexivity.
  - destruct r; reflexivity.
Qed.

Lemma startswith_254_inv s :
  startswith s "254" = true -> exists r, s = String "2" (String "5" (String "4" r)).
Proof.
  unfold startswith. intros H.
  destruct s as [|c s]; [discriminate H|].
  destruct c as [[] [] [] [] [] [] [] []]; try discriminate H.
  destruct s as [|c s]; [discriminate H|].
  destruct c as [[] [] [] [] [] [] [] []]; try discriminate H.
  destruct s as [|c s]; [discriminate H|].
  destruct c as [[] [] [] [] [] [] [] []]; try discriminate H.
  exists s. reflexivity.
Qed.

(** The normalized number is never empty and holds digits only, so the
    handler's check of it comes down to its length. *)
Lemma format_phone_number_isdigit s : str_isdigit (format_phone_number s) = true.
Proof.
  unfold format_phone_number.
  pose proof (str_filter_forall isdigit s) as H.
  destruct (str_filter isdigit s) as [|c r] eqn:Hd.
  - reflexivity.
  - destruct (startswith (String c r) "0").
    + simpl in H. apply andb_prop in H as [_ H]. exact H.
    + destruct (startswith (String c r) "254") eqn:E; simpl negb; cbv iota.
      * destruct (startswith_254_inv _ E) as [r' Hr]. rewrite Hr in *. exact H.
      * exact H.
Qed.

(** C7. [format_phone_number] strips the non-digit characters, then replaces
    a leading "0" by "254", or else prepends "254" unless the digits already
    start with it, and otherwise leaves them unchanged; so digits that are a
    "0" followed by nine more give "254" followed by those nine, and an
    all-digit input that starts with "254" is returned as it is. *)
Theorem format_phone_number_contract :
  (forall s, format_phone_number s = normalize_spec s) /\
  (forall s rest,
      str_filter isdigit s = String "0" rest -> String.length rest = 9%nat ->
      format_phone_number s = "254" +:+ rest /\
      String.length (format_phone_number s) = 12%nat) /\
  (forall s,
      str_forall isdigit s = true -> startswith s "254" = true ->
      format_phone_number s = s).
Proof.
  split; [exact format_phone_number_refines|]. split.
  - intros s rest Hs Hlen.
    assert (format_phone_number s = "254" +:+ rest) as ->.
    { rewrite format_phone_number_refines. unfold normalize_spec. rewrite Hs. reflexivity. }
    split; [reflexivity|].
    change (S (S (S (String.length rest))) = 12%nat). rewrite Hlen. reflexivity.
  - intros s Hd Hp.
    rewrite format_phone_number_refines. unfold normalize_spec.
    rewrite (str_filter_id _ _ Hd).
    destruct (startswith_254_inv s Hp) as [r ->]. reflexivity.
Qed.

(** A local number with separators, and a number already in canonical form. *)
Lemma format_phone_number_contract_witness :
  format_phone_number "0722 000-000" = "254722000000" /\
  format_phone_number "254722000000" = "254722000000".
Proof.
  destruct format_phone_number_contract as (_ & Hzero & Hcanon). split.
  - apply (Hzero "0722 000-000" "722000000"); reflexivity.
  - apply (Hcanon "254722000000"); reflexivity.
Defined.

(** ** The callback handler *)

Section Callback.

Variable rt : runtime.

(** The body of [mpesa_callback], step by step. *)
Lemma mpesa_callback_body_unfold env request w :
  mpesa_callback_body rt env request w =
  match callback_extract request with
  | Raise e => (Raise e, w)
  | Ok c =>
      if truthy (cb_checkout_request_id c) then
        match document env (cb_checkout_request_id c) with
        | Raise e => (Raise e, w)
        | Ok ref =>
            match callback_update rt c with
            | Raise e => (Raise e, w)
            | Ok upd =>
                match db w !! ref with
                | None => (Raise NotFound, w)
                | Some old =>
                    (Ok (ack 0 "Callback processed successfully"),
                     {| db := <[ref := resolve_timestamps (server_time env) upd ∪ old]> (db w);
                        calls := calls w |})
                end
            end
        end
      else (Ok (ack 1 "Invalid callback data"), w)
  end.
Proof.
  unfold mpesa_callback_body, mbind, M_bind, lift, ret, doc_update.
  destruct (callback_extract request) as [c|e]; [|reflexivity].
  destruct (truthy (cb_checkout_request_id c)); simpl; [|reflexivity].
  destruct (document env (cb_checkout_request_id c)) as [ref|e]; [|reflexivity].
  destruct (callback_update rt c) as [upd|e]; [|reflexivity].
  destruct (db w !! ref); reflexivity.
Qed.

(** A fault in the body leaves the world as it was. *)
Lemma mpesa_callback_body_raise env request w e w' :
  mpesa_callback_body rt env request w = (Raise e, w') -> w' = w.
Proof.
  rewrite mpesa_callback_body_unfold.
  repeat case_match; congruence.
Qed.

(** C4. [mpesa_callback] returns an acknowledgment [{ResultCode, ResultDesc}]
    with code 0 or 1 on every input; when the checkout id is missing the
    code is 1 and the world is unchanged, and when the body raises the
    exception is swallowed, the code is 1 and the world is unchanged. *)
Theorem mpesa_callback_always_acknowledges env request w :
  let out := mpesa_callback rt env request w in
  (exists code desc, out.1 = Ok (ack code desc) /\ (code = 0 \/ code = 1)) /\
  (forall c, callback_extract request = Ok c ->
             truthy (cb_checkout_request_id c) = false ->
             out = (Ok (ack 1 "Invalid callback data"), w)) /\
  (forall e w', mpesa_callback_body rt env request w = (Raise e, w') ->
                out = (Ok (ack 1 "Callback processing failed"), w)).
Proof.
  cbv zeta. unfold mpesa_callback, try_except. split; [|split].
  - rewrite mpesa_callback_body_unfold.
    repeat case_match; simplify_eq; simpl; eauto 6.
  - intros c Hc Hid. rewrite mpesa_callback_body_unfold, Hc, Hid. reflexivity.
  - intros e w' Hbody. rewrite Hbody.
    apply mpesa_callback_body_raise in Hbody as ->. reflexivity.
Qed.

(** *** Applying a callback twice *)

Lemma document_truthy env1 env2 id :
  truthy id = true -> document env1 id = document env2 id.
Proof. destruct id; simpl; intros; congruence. Qed.

Lemma sentinel_only_at_insert k m f v :
  sentinel_only_at k m -> sentinel_only_at k (<[f := Val v]> m).
Proof.
  intros Hm g. rewrite lookup_insert. case_decide; [discriminate|]. apply Hm.
Qed.

Lemma callback_default_update_sentinel c :
  sentinel_only_at "callback_timestamp" (callback_default_update c).
Proof.
  intros f Hf. apply elem_of_list_to_map_2 in Hf.
  repeat (apply elem_of_cons in Hf as [Hf|Hf]; [congruence|]).
  by apply elem_of_nil in Hf.
Qed.

Lemma callback_item_sentinel k upd item upd' :
  sentinel_only_at k upd -> callback_item rt upd item = Ok upd' -> sentinel_only_at k upd'.
Proof.
  intros Hs. unfold callback_item, mbind, result_bind.
  repeat case_match; intros; simplify_eq; auto using sentinel_only_at_insert.
Qed.

Lemma callback_items_sentinel k items : forall upd upd',
  sentinel_only_at k upd -> callback_items rt upd items = Ok upd' -> sentinel_only_at k upd'.
Proof.
  induction items as [|item rest IH]; simpl; intros upd upd' Hs H.
  - by simplify_eq.
  - unfold mbind, result_bind in H.
    destruct (callback_item rt upd item) as [u|] eqn:Hitem; [|discriminate].
    eauto using callback_item_sentinel.
Qed.

Lemma callback_update_sentinel c upd :
  callback_update rt c = Ok upd -> sentinel_only_at "callback_timestamp" upd.
Proof.
  unfold callback_update, mbind, result_bind.
  pose proof (callback_default_update_sentinel c) as Hd.
  repeat case_match; intros; simplify_eq;
    eauto using sentinel_only_at_insert, callback_items_sentinel.
Qed.

(** Writing the same update a second time, at another time, changes no
    field but those that hold the sentinel. *)
Lemma resolve_twice_lookup t1 t2 upd (old : gmap string value) f :
  upd !! f <> Some SERVER_TIMESTAMP ->
  (resolve_timestamps t2 upd ∪ (resolve_timestamps t1 upd ∪ old)) !! f
  = (resolve_timestamps t1 upd ∪ old) !! f.
Proof.
  intros Hf. unfold resolve_timestamps. rewrite !lookup_union, !lookup_fmap.
  destruct (upd !! f) as [[v|]|]; simpl; [|congruence|].
  - by destruct (old !! f).
  - by destruct (old !! f).
Qed.

Lemma mpesa_callback_twice env1 env2 request w :
  let out1 := mpesa_callback rt env1 request w in
  let out2 := mpesa_callback rt env2 request out1.2 in
  out2.1 = out1.1 /\
  forall id f, f <> "callback_timestamp" ->
               stored_field out2.2 id f = stored_field out1.2 id f.
Proof.
  cbv zeta. unfold mpesa_callback, try_except.
  rewrite !mpesa_callback_body_unfold.
  destruct (callback_extract request) as [c|e]; [|done].
  destruct (truthy (cb_checkout_request_id c)) eqn:Hid; [|done].
  rewrite (document_truthy env1 env2 _ Hid).
  destruct (document env2 (cb_checkout_request_id c)) as [ref|e]; [|done].
  destruct (callback_update rt c) as [upd|e] eqn:Hupd; [|done].
  destruct (db w !! ref) as [old|] eqn:Hold; simpl; [|by rewrite Hold].
  rewrite lookup_insert_eq. simpl. split; [done|].
  intros id f Hf. unfold stored_field; simpl.
  destruct (decide (ref = id)) as [->|Hne].
  - rewrite !lookup_insert_eq. apply resolve_twice_lookup.
    intros Hs. apply Hf. eapply callback_update_sentinel; eauto.
  - by rewrite !lookup_insert_ne.
Qed.

(** C8. Applying the same callback a second time gives the same
    acknowledgment and leaves every terminal field of every record (status,
    result_code, result_description, confirmed_amount, mpesa_receipt_number,
    transaction_date, confirmed_phone_number, callback_received) as the first
    application left it. *)
Theorem mpesa_callback_idempotent env1 env2 request w :
  let out1 := mpesa_callback rt env1 request w in
  let out2 := mpesa_callback rt env2 request out1.2 in
  out2.1 = out1.1 /\
  forall id, Forall (fun f => stored_field out2.2 id f = stored_field out1.2 id f)
                    terminal_fields.
Proof.
  cbv zeta. destruct (mpesa_callback_twice env1 env2 request w) as [Hack Hfield].
  split; [exact Hack|]. intros id.
  unfold terminal_fields. repeat (constructor; [by apply Hfield|]). constructor.
Qed.

(** *** What a callback writes *)






Lemma lookup_resolve_union t upd (old : gmap string value) k :
  (resolve_timestamps t upd ∪ old) !! k =
  match upd !! k with
  | Some x => Some (resolve_timestamp t x)
  | None => old !! k
  end.
Proof.
  unfold resolve_timestamps. rewrite lookup_union, lookup_fmap.
  destruct (upd !! k); simpl; by destruct (old !! k).
Qed.







(** *** The status a failed callback stores *)


Lemma callback_failure_status_codeToStatus n :
  n <> 0 -> n <> 1031 -> callback_failure_status (VInt n) = codeToStatus n.
Proof.
  intros H0 H1031. unfold callback_failure_status, codeToStatus, py_eq_int.
  repeat (case_match; try reflexivity); lia.
Qed.

(** C1 at result code 1031: the callback stores "failed", where the table of
    the specification and the status query of this program give
    "cancelled". *)
Theorem mpesa_callback_1031_stores_failed env old cs desc :
  let w := {| db := {["ws_CO_1" := old]}; calls := cs |} in
  let out := mpesa_callback rt env (callback_payload "ws_CO_1" 1031 desc []) w in
  out.1 = Ok (ack 0 "Callback processed successfully") /\
  stored_field out.2 "ws_CO_1" "status" = Some (VStr "failed") /\
  codeToStatus 1031 = "cancelled" /\
  query_status (VInt 1031) = "cancelled".
Proof.
  cbv zeta. unfold mpesa_callback, try_except. rewrite mpesa_callback_body_unfold.
  simpl. rewrite lookup_singleton_eq. simpl. split; [reflexivity|].
  split; [|split; reflexivity].
  unfold stored_field. simpl. rewrite lookup_insert_eq, lookup_resolve_union.
  reflexivity.
Qed.

End Callback.

(** *** The specification's scenarios for the callback *)



(** A payload with no checkout id, and a body that is not JSON. *)
Lemma mpesa_callback_always_acknowledges_witness :
  (forall rt env w,
      mpesa_callback rt env (BodyJson (VDict [])) w =
        (Ok (ack 1 "Invalid callback data"), w)) /\
  (forall rt env w,
      mpesa_callback rt env BodyInvalid w =
        (Ok (ack 1 "Callback processing failed"), w)).
Proof.
  split; intros rt env w.
  - destruct (mpesa_callback_always_acknowledges rt env (BodyJson (VDict [])) w)
      as (_ & Hmissing & _).
    eapply Hmissing; reflexivity.
  - destruct (mpesa_callback_always_acknowledges rt env BodyInvalid w)
      as (_ & _ & Hfault).
    eapply Hfault. reflexivity.
Defined.

(** ** The status query *)

Section CheckStatus.

Variable rt : runtime.

(** [get_access_token], step by step: it writes nothing to the store. *)
Lemma get_access_token_unfold env w :
  get_access_token rt env w =
  if negb (env_truthy (CONSUMER_KEY env)) || negb (env_truthy (CONSUMER_SECRET env)) then
    (Raise (HTTPException 500 "M-Pesa credentials not configured"), w)
  else
    let w' := {| db := db w; calls := calls w ++ [AuthGet] |} in
    match auth_reply env with
    | ReplyError msg =>
        (Raise (HTTPException 500
                  ("Error getting access token: " +:+ exc_str rt (RequestException msg))), w')
    | ReplyJson body =>
        match py_get body "access_token" VNone with
        | Raise e => (Raise e, w')
        | Ok access_token =>
            if truthy access_token then (Ok access_token, w')
            else (Raise (HTTPException 500 "Failed to get access token from M-Pesa"), w')
        end
    end.
Proof.
  unfold get_access_token.
  destruct (negb (env_truthy (CONSUMER_KEY env)) || negb (env_truthy (CONSUMER_SECRET env)));
    [reflexivity|].
  unfold try_except, mbind, M_bind, upstream, lift, raise, ret. cbv zeta.
  destruct (auth_reply env) as [msg|body]; [reflexivity|].
  destruct body; try reflexivity. simpl.
  destruct (truthy _); reflexivity.
Qed.

Lemma get_access_token_db env w : db (get_access_token rt env w).2 = db w.
Proof. rewrite get_access_token_unfold. repeat case_match; reflexivity. Qed.

(** C5 on the code: a status query for an id that the store does not hold
    raises the 404 inside the handler's [try], where the last [except]
    clause catches it and raises a 500 in its place. *)
Theorem check_transaction_status_unknown_id env request w :
  db w !! checkout_request_id request = None ->
  check_transaction_status rt env request w =
    (Raise (HTTPException 500
              ("An unexpected error occurred: " +:+
               exc_str rt (HTTPException 404 "Transaction not found"))), w).
Proof.
  intros Hnone.
  unfold check_transaction_status, try_except, check_transaction_status_body,
    mbind, M_bind, doc_get. rewrite Hnone. reflexivity.
Qed.


(** Neither the callback nor the status query changes which records exist. *)
Lemma mpesa_callback_dom env request w :
  dom (db (mpesa_callback rt env request w).2) = dom (db w).
Proof.
  unfold mpesa_callback, try_except. rewrite mpesa_callback_body_unfold.
  repeat case_match; simplify_eq; simpl; try reflexivity.
  apply dom_insert_lookup_L. eauto.
Qed.

Lemma check_transaction_status_dom env request w :
  dom (db (check_transaction_status rt env request w).2) = dom (db w).
Proof.
  unfold check_transaction_status, try_except, check_transaction_status_body.
  unfold mbind at 1. unfold M_bind at 1. unfold doc_get at 1.
  destruct (db w !! checkout_request_id request) as [d|] eqn:Hd; [|reflexivity].
  destruct (truthy (dget d "callback_received" (VBool false))); [reflexivity|].
  destruct (negb (truthy (dget d "merchant_request_id" VNone))); [reflexivity|].
  unfold mbind, M_bind.
  pose proof (get_access_token_db env w) as Htok.
  destruct (get_access_token rt env w) as [[tok|e] w1]; simpl in Htok.
  2: { destruct e; simpl; by rewrite Htok. }
  unfold upstream, lift, doc_update, ret. simpl.
  repeat case_match; simplify_eq; simpl; try (by rewrite Htok).
  rewrite <- Htok. apply dom_insert_lookup_L. eauto.
Qed.

(** C10. Records are created by [initiate_stk_push] only: an update of a
    document that does not exist fails with [NotFound]; a callback whose
    checkout id names no stored record is acknowledged with code 1 and
    leaves the world as it was (when the update could be computed, it is the
    store's [NotFound] that the handler swallows); and neither the callback
    nor the status query changes the set of stored ids. *)
Theorem mpesa_callback_never_creates env request w :
  let out := mpesa_callback rt env request w in
  (forall id fields,
      db w !! id = None -> doc_update env id fields w = (Raise NotFound, w)) /\
  (forall c id,
      callback_extract request = Ok c -> cb_checkout_request_id c = VStr id ->
      db w !! id = None ->
      (exists desc, out = (Ok (ack 1 desc), w)) /\
      (forall upd, id <> "" -> callback_update rt c = Ok upd ->
                   mpesa_callback_body rt env request w = (Raise NotFound, w))) /\
  dom (db out.2) = dom (db w) /\
  (forall env' request',
      dom (db (check_transaction_status rt env' request' w).2) = dom (db w)).
Proof.
  cbv zeta. split; [|split; [|split]].
  - intros id fields Hnone. unfold doc_update. by rewrite Hnone.
  - intros c id Hc Hid Hnone.
    unfold mpesa_callback, try_except.
    rewrite mpesa_callback_body_unfold, Hc, Hid. simpl document. split.
    + destruct (truthy (VStr id)); [|eauto].
      destruct (callback_update rt c); [|eauto]. rewrite Hnone. eauto.
    + intros upd Hne Hupd. rewrite Hupd, Hnone. by destruct id.
  - apply mpesa_callback_dom.
  - intros env' request'. apply check_transaction_status_dom.
Qed.

End CheckStatus.

(** *** Scenarios for the status query *)



(** An id that the store of the pending record does not hold. *)
Lemma check_transaction_status_unknown_id_witness :
  db pending_world !! "ws_CO_404" = None /\
  forall rt env,
    check_transaction_status rt env {| checkout_request_id := "ws_CO_404" |} pending_world =
      (Raise (HTTPException 500
                ("An unexpected error occurred: " +:+
                 exc_str rt (HTTPException 404 "Transaction not found"))),
       pending_world).
Proof.
  split; [reflexivity|]. intros rt env.
  apply (check_transaction_status_unknown_id rt env
           {| checkout_request_id := "ws_CO_404" |} pending_world).
  reflexivity.
Defined.

(** The successful callback sent to an empty store: the update fails with
    [NotFound] and the store stays empty. *)
Lemma mpesa_callback_never_creates_witness :
  db {| db := ∅; calls := [] |} !! "ws_CO_1" = None /\
  forall rt env,
    (exists desc,
        mpesa_callback rt env success_callback {| db := ∅; calls := [] |} =
          (Ok (ack 1 desc), {| db := ∅; calls := [] |})) /\
    mpesa_callback_body rt env success_callback {| db := ∅; calls := [] |} =
      (Raise NotFound, {| db := ∅; calls := [] |}).
Proof.
  split; [reflexivity|]. intros rt env.
  destruct (mpesa_callback_never_creates rt env success_callback {| db := ∅; calls := [] |})
    as (_ & Hmissing & _).
  destruct (Hmissing
              {| cb_data := match success_callback with BodyJson v => v | _ => VNone end;
                 cb_stk := VDict ([("MerchantRequestID", VStr "29115-34620561-1");
                                   ("CheckoutRequestID", VStr "ws_CO_1");
                                   ("ResultCode", VInt 0);
                                   ("ResultDesc",
                                    VStr "The service request is processed successfully.")]
                                  ++ with_metadata success_items);
                 cb_checkout_request_id := VStr "ws_CO_1";
                 cb_result_code := VInt 0;
                 cb_result_desc := VStr "The service request is processed successfully." |}
              "ws_CO_1" eq_refl eq_refl eq_refl) as [[desc Hack] Hbody].
  split.
  - exists desc. exact Hack.
  - eapply Hbody; [discriminate|reflexivity].
Defined.

(** ** The initiation handler *)

Section Initiate.

Variable rt : runtime.

(** The body of [initiate_stk_push] up to its two validations. *)
Lemma initiate_stk_push_body_nonfinite env request w e :
  int_of_float (amount request) = Raise e ->
  initiate_stk_push_body rt env request w = (Raise e, w).
Proof.
  intros Ha. unfold initiate_stk_push_body, mbind, M_bind, lift. by rewrite Ha.
Qed.

Lemma initiate_stk_push_body_bad_phone env request w a :
  int_of_float (amount request) = Ok a ->
  phone_ok (format_phone_number (phone_number request)) = false ->
  initiate_stk_push_body rt env request w =
    (Raise (HTTPException 400
              "Invalid phone number format. Use format: 0722000000 or 254722000000"), w).
Proof.
  intros Ha Hphone. unfold phone_ok in Hphone.
  unfold initiate_stk_push_body, mbind, M_bind, lift. by rewrite Ha, Hphone.
Qed.

Lemma initiate_stk_push_body_bad_amount env request w a :
  int_of_float (amount request) = Ok a ->
  phone_ok (format_phone_number (phone_number request)) = true ->
  a <= 0 ->
  initiate_stk_push_body rt env request w =
    (Raise (HTTPException 400 "Amount must be greater than 0"), w).
Proof.
  intros Ha Hphone Hle. unfold phone_ok in Hphone.
  unfold initiate_stk_push_body, mbind, M_bind, lift. rewrite Ha, Hphone.
  simpl. assert ((a <=? 0) = true) as -> by lia. done.
Qed.

(** C6 on the code: when the normalized number is not twelve digits, the
    handler raises its 400 inside the [try], where the last [except] clause
    catches it; what leaves the handler is a 500, and nothing was sent or
    stored. *)
Theorem initiate_stk_push_invalid_phone env request w :
  phone_ok (format_phone_number (phone_number request)) = false ->
  (exists detail,
      initiate_stk_push rt env request w = (Raise (HTTPException 500 detail), w)) /\
  (forall a, int_of_float (amount request) = Ok a ->
     initiate_stk_push rt env request w =
       (Raise (HTTPException 500
                 ("An unexpected error occurred: " +:+
                  exc_str rt
                    (HTTPException 400
                       "Invalid phone number format. Use format: 0722000000 or 254722000000"))),
        w)).
Proof.
  intros Hphone. unfold initiate_stk_push, try_except.
  destruct (int_of_float (amount request)) as [a|e] eqn:Ha.
  - rewrite (initiate_stk_push_body_bad_phone env request w a Ha Hphone).
    split; [eauto|]. by intros ? [= <-].
  - rewrite (initiate_stk_push_body_nonfinite env request w e Ha).
    split; [|intros ? [=]]. destruct e; eauto.
Qed.

(** What [initiate_stk_push] does to the store: nothing, or one [set] of a
    pending record whose amount is the truncated, positive amount. *)
Local Ltac unchanged E :=
  left; unfold raise in E; simpl in E; by simplify_eq.

Lemma initiate_stk_push_db env request w r w' :
  initiate_stk_push rt env request w = (r, w') ->
  db w' = db w \/
  exists a ref (checkout merchant : value),
    int_of_float (amount request) = Ok a /\ 0 < a /\
    db w' =
      <[ref := resolve_timestamps (server_time env)
                 (list_to_map
                    [("phone_number", Val (VStr (format_phone_number (phone_number request))));
                     ("amount", Val (VInt a));
                     ("timestamp", SERVER_TIMESTAMP);
                     ("checkout_request_id", Val checkout);
                     ("status", Val (VStr "pending"));
                     ("merchant_request_id", Val merchant);
                     ("account_reference", Val (opt_str (account_reference request)));
                     ("transaction_desc", Val (opt_str (transaction_desc request)))])]>
        (db w).
Proof.
  unfold initiate_stk_push, try_except. intros E.
  destruct (int_of_float (amount request)) as [a|e] eqn:Ha.
  2: { rewrite (initiate_stk_push_body_nonfinite env request w e Ha) in E.
       destruct e; unchanged E. }
  destruct (phone_ok (format_phone_number (phone_number request))) eqn:Hphone.
  2: { rewrite (initiate_stk_push_body_bad_phone env request w a Ha Hphone) in E.
       unchanged E. }
  destruct (Z_le_gt_dec a 0) as [Hle|Hpos].
  { rewrite (initiate_stk_push_body_bad_amount env request w a Ha Hphone Hle) in E.
    unchanged E. }
  unfold phone_ok in Hphone.
  unfold initiate_stk_push_body, mbind, M_bind, lift at 1 in E. rewrite Ha, Hphone in E.
  assert ((a <=? 0) = false) as Hgt by lia. rewrite Hgt in E.
  change (negb true) with false in E. cbv beta iota in E.
  unfold generate_password in E.
  destruct (negb (env_truthy (PASS_KEY env))); [unchanged E|].
  unfold ret at 1 in E. cbv beta iota in E.
  pose proof (get_access_token_db rt env w) as Htok.
  destruct (get_access_token rt env w) as [[tok|e] w1]; simpl in Htok.
  2: { destruct e; unchanged E. }
  unfold upstream, lift, doc_set, ret, raise in E. simpl in E.
  destruct (stk_push_reply env) as [msg|result]; [unchanged E|].
  destruct (py_get result "ResponseCode" VNone) as [rc|e]; simpl in E.
  2: { destruct e; unchanged E. }
  destruct (py_eq_str rc "0").
  2: { destruct (py_get result "errorMessage" (VStr "Unknown error")) as [em|e];
         [|destruct e]; unchanged E. }
  destruct (py_get result "CheckoutRequestID" VNone) as [cid|e]; simpl in E.
  2: { destruct e; unchanged E. }
  destruct (py_get result "MerchantRequestID" VNone) as [mid|e]; simpl in E.
  2: { destruct e; unchanged E. }
  destruct (document env cid) as [ref|e]; simpl in E.
  2: { destruct e; unchanged E. }
  right. exists a, ref, cid, mid. simplify_eq. simpl. rewrite Htok.
  split; [done|]. split; [lia|done].
Qed.

(** C9. A record that [initiate_stk_push] writes holds as its amount the
    submitted amount truncated to an integer, and that integer is positive;
    when the truncation is zero or negative, or the amount is not a finite
    number, the handler raises, sends nothing and stores nothing. *)
Theorem initiate_stk_push_amount_positive env request w :
  let out := initiate_stk_push rt env request w in
  (forall id d,
      db out.2 !! id = Some d -> db w !! id <> Some d ->
      exists a, int_of_float (amount request) = Ok a /\ 0 < a /\
                d !! "amount" = Some (VInt a)) /\
  (forall a, int_of_float (amount request) = Ok a -> a <= 0 ->
             out.2 = w /\
             exists status detail, out.1 = Raise (HTTPException status detail)) /\
  (forall e, int_of_float (amount request) = Raise e ->
             out.2 = w /\
             exists status detail, out.1 = Raise (HTTPException status detail)).
Proof.
  cbv zeta. split; [|split].
  - intros id d Hnew Hold.
    destruct (initiate_stk_push_db env request w _ _ (surjective_pairing _))
      as [Hsame|Hset].
    + rewrite Hsame in Hnew. contradiction.
    + destruct Hset as (a & ref & cid & mid & Ha & Hpos & Hdb).
      rewrite Hdb in Hnew. exists a. split; [exact Ha|]. split; [exact Hpos|].
      destruct (decide (ref = id)) as [->|Hne].
      * rewrite lookup_insert_eq in Hnew. injection Hnew as <-.
        unfold resolve_timestamps. rewrite lookup_fmap. reflexivity.
      * rewrite lookup_insert_ne in Hnew by done. contradiction.
  - intros a Ha Hle. unfold initiate_stk_push, try_except.
    destruct (phone_ok (format_phone_number (phone_number request))) eqn:Hphone.
    + rewrite (initiate_stk_push_body_bad_amount env request w a Ha Hphone Hle).
      simpl. eauto.
    + rewrite (initiate_stk_push_body_bad_phone env request w a Ha Hphone).
      simpl. eauto.
  - intros e He. unfold initiate_stk_push, try_except.
    rewrite (initiate_stk_push_body_nonfinite env request w e He).
    destruct e; simpl; eauto.
Qed.

End Initiate.

(** *** Scenarios for the initiation *)

Lemma phone_12345_rejected : phone_ok (format_phone_number "12345") = false.
Proof. vm_compute. reflexivity. Qed.

(** "12345" normalizes to the eight digits "25412345". *)
Lemma initiate_stk_push_invalid_phone_witness :
  phone_ok (format_phone_number "12345") = false /\
  forall rt env,
    initiate_stk_push rt env (push_request "12345" float_100) empty_world =
      (Raise (HTTPException 500
                ("An unexpected error occurred: " +:+
                 exc_str rt
                   (HTTPException 400
                      "Invalid phone number format. Use format: 0722000000 or 254722000000"))),
       empty_world).
Proof.
  split; [exact phone_12345_rejected|]. intros rt env.
  destruct (initiate_stk_push_invalid_phone rt env (push_request "12345" float_100)
              empty_world phone_12345_rejected) as [_ Hexact].
  exact (Hexact 100 eq_refl).
Defined.

(** The specification's scenario: initiating with "0722000000" and 100
    stores a pending record under the gateway's checkout id. *)
Lemma initiate_stk_push_scenario rt :
  let out := initiate_stk_push rt sample_env (push_request "0722000000" float_100)
               empty_world in
  stored_field out.2 "ws_CO_1" "phone_number" = Some (VStr "254722000000") /\
  stored_field out.2 "ws_CO_1" "status" = Some (VStr "pending") /\
  stored_field out.2 "ws_CO_1" "amount" = Some (VInt 100) /\
  calls out.2 = [AuthGet; StkPushPost "254722000000" 100].
Proof. vm_compute. done. Qed.

(** An amount of 100.0 is stored as 100; an amount of 0.5 is refused. *)
Lemma initiate_stk_push_amount_positive_witness :
  int_of_float float_100 = Ok 100 /\
  int_of_float float_half = Ok 0 /\
  (forall rt,
      let out := initiate_stk_push rt sample_env (push_request "0722000000" float_100)
                   empty_world in
      exists d, db out.2 !! "ws_CO_1" = Some d /\
                d !! "amount" = Some (VInt 100) /\
                d !! "phone_number" = Some (VStr "254722000000") /\
                d !! "status" = Some (VStr "pending")) /\
  (forall rt env,
      (initiate_stk_push rt env (push_request "0722000000" float_half) empty_world).2
      = empty_world).
Proof.
  split; [reflexivity|]. split; [reflexivity|]. split.
  - intros rt. cbv zeta.
    destruct (initiate_stk_push_amount_positive rt sample_env
                (push_request "0722000000" float_100) empty_world) as (Hnew & _ & _).
    destruct (initiate_stk_push_scenario rt) as (Hphone & Hstatus & _).
    unfold stored_field in Hphone, Hstatus.
    destruct (db (initiate_stk_push rt sample_env (push_request "0722000000" float_100)
                    empty_world).2 !! "ws_CO_1") as [d|] eqn:Hd; [|discriminate].
    destruct (Hnew "ws_CO_1" d Hd) as (a & Ha & _ & Hamount); [discriminate|].
    injection Ha as <-. exists d. done.
  - intros rt env.
    destruct (initiate_stk_push_amount_positive rt env
                (push_request "0722000000" float_half) empty_world) as (_ & Hreject & _).
    destruct (Hreject 0 eq_refl) as [Hw _]; [lia|]. exact Hw.
Defined.

(** * Further properties *)

(** ** More on the phone number normalizer *)

Lemma startswith_254_cons x : startswith ("254" +:+ x) "254" = true.
Proof. unfold startswith. destruct x; reflexivity. Qed.

Lemma format_phone_number_prefix s : startswith (format_phone_number s) "254" = true.
Proof.
  unfold format_phone_number.
  destruct (startswith (str_filter isdigit s) "0").
  - apply startswith_254_cons.
  - destruct (startswith (str_filter isdigit s) "254") eqn:E; simpl negb; cbv iota.
    + exact E.
    + apply startswith_254_cons.
Qed.

Lemma str_isdigit_forall s : str_isdigit s = true -> str_forall isdigit s = true.
Proof. destruct s; [discriminate|]. intros H. exact H. Qed.

Lemma startswith_254_not_0 s : startswith s "254" = true -> startswith s "0" = false.
Proof. intros H. destruct (startswith_254_inv s H) as [r ->]. reflexivity. Qed.

(** A normalized number is left as it is. *)
Lemma format_phone_number_fixed d :
  str_forall isdigit d = true -> startswith d "254" = true -> format_phone_number d = d.
Proof.
  intros Hd Hp. unfold format_phone_number. rewrite (str_filter_id _ _ Hd).
  rewrite (startswith_254_not_0 _ Hp), Hp. reflexivity.
Qed.

(** The result always starts with "254" and holds digits only, whatever the
    input; normalizing it again changes nothing; and the result depends on
    the digits of the input only. *)
Theorem format_phone_number_idempotent s :
  startswith (format_phone_number s) "254" = true /\
  str_forall isdigit (format_phone_number s) = true /\
  format_phone_number (format_phone_number s) = format_phone_number s /\
  format_phone_number (str_filter isdigit s) = format_phone_number s.
Proof.
  pose proof (format_phone_number_prefix s) as Hp.
  pose proof (str_isdigit_forall _ (format_phone_number_isdigit s)) as Hd.
  split; [exact Hp|]. split; [exact Hd|]. split.
  - by apply format_phone_number_fixed.
  - unfold format_phone_number.
    by rewrite (str_filter_id _ _ (str_filter_forall isdigit s)).
Qed.

(** The handler's check accepts a number exactly when its digits are ten
    with a leading "0", twelve with a leading "254", or nine otherwise. *)
Theorem format_phone_number_accepted s :
  phone_ok (format_phone_number s) =
  (String.length (str_filter isdigit s) =? accepted_length (str_filter isdigit s))%nat.
Proof.
  unfold phone_ok. rewrite format_phone_number_isdigit, andb_true_r.
  unfold format_phone_number, accepted_length.
  destruct (str_filter isdigit s) as [|c r] eqn:Hd; [reflexivity|].
  destruct (startswith (String c r) "0").
  - reflexivity.
  - destruct (startswith (String c r) "254"); reflexivity.
Qed.

(** ** More on the token request and the initiation *)

Section InitiateOutcome.

Variable rt : runtime.

(** [get_access_token] writes nothing to the store.  With a key or a secret
    unset it raises its 500 and sends nothing; otherwise it sends the one
    token request.  A token it returns is never empty, and what it raises is
    an [HTTPException] with status 500, or the [AttributeError] of a token
    answer that is not an object. *)
Theorem get_access_token_outcome env w :
  let out := get_access_token rt env w in
  db out.2 = db w /\
  (if env_truthy (CONSUMER_KEY env) && env_truthy (CONSUMER_SECRET env) then
     calls out.2 = (calls w ++ [AuthGet])%list
   else out = (Raise (HTTPException 500 "M-Pesa credentials not configured"), w)) /\
  match out.1 with
  | Ok token => truthy token = true
  | Raise e =>
      (exists detail, e = HTTPException 500 detail) \/
      (e = AttributeError /\
       exists body, auth_reply env = ReplyJson body /\
                    py_get body "access_token" VNone = Raise AttributeError)
  end.
Proof.
  cbv zeta. rewrite get_access_token_unfold.
  destruct (env_truthy (CONSUMER_KEY env)), (env_truthy (CONSUMER_SECRET env));
    simpl; try (split; [reflexivity|]; split; [reflexivity|]; eauto).
  destruct (auth_reply env) as [msg|body]; simpl.
  { split; [reflexivity|]. split; [reflexivity|]. eauto. }
  destruct (py_get body "access_token" VNone) as [token|e] eqn:Hget.
  - destruct (truthy token) eqn:Htok; simpl; eauto 6.
  - simpl. split; [reflexivity|]. split; [reflexivity|]. right.
    destruct body; simpl in Hget; simplify_eq; eauto.
Qed.

Lemma get_access_token_ok env w token w1 :
  get_access_token rt env w = (Ok token, w1) ->
  w1 = {| db := db w; calls := calls w ++ [AuthGet] |}.
Proof.
  rewrite get_access_token_unfold. cbv zeta.
  repeat case_match; intros; by simplify_eq.
Qed.

Local Ltac failed E :=
  left; unfold raise in E; simpl in E; simplify_eq; split; [eauto|done].

(** Every way through [initiate_stk_push]. *)
Lemma initiate_stk_push_cases env request w r w' :
  initiate_stk_push rt env request w = (r, w') ->
  ((exists detail, r = Raise (HTTPException 500 detail)) /\ db w' = db w) \/
  (exists a ref cid mid,
      int_of_float (amount request) = Ok a /\ 0 < a /\
      phone_ok (format_phone_number (phone_number request)) = true /\
      document env cid = Ok ref /\
      r = Ok {| success := true;
                message := "STK push request sent successfully";
                data := Some [("checkout_request_id", cid);
                              ("merchant_request_id", mid);
                              ("phone_number",
                               VStr (format_phone_number (phone_number request)));
                              ("amount", VInt a)] |} /\
      w' = {| db := <[ref := pending_data env request a cid mid]> (db w);
              calls := calls w ++
                       [AuthGet;
                        StkPushPost (format_phone_number (phone_number request)) a] |}).
Proof.
  unfold initiate_stk_push, try_except. intros E.
  destruct (int_of_float (amount request)) as [a|e] eqn:Ha.
  2: { rewrite (initiate_stk_push_body_nonfinite rt env request w e Ha) in E.
       destruct e; failed E. }
  destruct (phone_ok (format_phone_number (phone_number request))) eqn:Hphone.
  2: { rewrite (initiate_stk_push_body_bad_phone rt env request w a Ha Hphone) in E.
       failed E. }
  destruct (Z_le_gt_dec a 0) as [Hle|Hpos].
  { rewrite (initiate_stk_push_body_bad_amount rt env request w a Ha Hphone Hle) in E.
    failed E. }
  pose proof Hphone as Hphone'. unfold phone_ok in Hphone'.
  unfold initiate_stk_push_body, mbind, M_bind, lift at 1 in E. rewrite Ha, Hphone' in E.
  assert ((a <=? 0) = false) as Hgt by lia. rewrite Hgt in E.
  change (negb true) with false in E. cbv beta iota in E.
  unfold generate_password in E.
  destruct (negb (env_truthy (PASS_KEY env))); [failed E|].
  unfold ret at 1 in E. cbv beta iota in E.
  pose proof (get_access_token_db rt env w) as Hdb.
  destruct (get_access_token rt env w) as [[tok|e] w1] eqn:Htok; simpl in Hdb.
  2: { destruct e; failed E. }
  apply get_access_token_ok in Htok as ->.
  unfold upstream, lift, doc_set, ret, raise in E. simpl in E.
  destruct (stk_push_reply env) as [msg|result]; [failed E|].
  destruct (py_get result "ResponseCode" VNone) as [rc|e]; simpl in E.
  2: { destruct e; failed E. }
  destruct (py_eq_str rc "0").
  2: { destruct (py_get result "errorMessage" (VStr "Unknown error")) as [em|e];
         [|destruct e]; failed E. }
  destruct (py_get result "CheckoutRequestID" VNone) as [cid|e]; simpl in E.
  2: { destruct e; failed E. }
  destruct (py_get result "MerchantRequestID" VNone) as [mid|e]; simpl in E.
  2: { destruct e; failed E. }
  destruct (document env cid) as [ref|e] eqn:Hdoc; simpl in E.
  2: { destruct e; failed E. }
  right. exists a, ref, cid, mid. simplify_eq.
  rewrite <- app_assoc. repeat (split; [done || lia|]). done.
Qed.

(** When [initiate_stk_push] fails, whatever the cause (validation, missing
    configuration, the token, the gateway's answer, the document id), what
    it raises is an [HTTPException] with status 500, and the store is as it
    was. *)
Theorem initiate_stk_push_failure env request w :
  let out := initiate_stk_push rt env request w in
  match out.1 with
  | Raise e => (exists detail, e = HTTPException 500 detail) /\ db out.2 = db w
  | Ok _ => True
  end.
Proof.
  cbv zeta.
  destruct (initiate_stk_push_cases env request w _ _ (surjective_pairing _))
    as [[[detail ->] Hdb]|(a & ref & cid & mid & _ & _ & _ & _ & -> & _)]; eauto.
Qed.


End InitiateOutcome.

(** ** More on the callback *)

Section CallbackOutcome.

Variable rt : runtime.

Lemma callback_item_other upd item upd' k :
  callback_item rt upd item = Ok upd' -> k ∉ metadata_field_names ->
  upd' !! k = upd !! k.
Proof.
  unfold callback_item, mbind, result_bind. intros H Hk.
  assert (forall f (x : write_value), f ∈ metadata_field_names ->
                                      <[f := x]> upd !! k = upd !! k) as Hins.
  { intros f x Hf. apply lookup_insert_ne. intros ->. by apply Hk. }
  repeat case_match; simplify_eq; try done;
    apply Hins; unfold metadata_field_names; by repeat constructor.
Qed.

Lemma callback_items_other items : forall upd upd' k,
  callback_items rt upd items = Ok upd' -> k ∉ metadata_field_names ->
  upd' !! k = upd !! k.
Proof.
  induction items as [|item rest IH]; simpl; intros upd upd' k H Hk.
  - by simplify_eq.
  - unfold mbind, result_bind in H.
    destruct (callback_item rt upd item) as [u|] eqn:Hitem; [|discriminate].
    rewrite (IH _ _ _ H Hk). eauto using callback_item_other.
Qed.

Lemma callback_failure_status_final code :
  callback_failure_status code ∈ final_statuses.
Proof.
  unfold callback_failure_status, final_statuses.
  repeat case_match; by repeat constructor.
Qed.

(** What every computed update holds outside the metadata fields. *)
Lemma callback_update_base c upd k :
  callback_update rt c = Ok upd -> k ∉ metadata_field_names ->
  upd !! k =
  (<["status" := Val (VStr (if py_eq_int (cb_result_code c) 0 then "completed"
                            else callback_failure_status (cb_result_code c)))]>
     (callback_default_update c)) !! k.
Proof.
  unfold callback_update, mbind, result_bind. intros H Hk.
  destruct (py_eq_int (cb_result_code c) 0); [|by simplify_eq].
  repeat case_match; simplify_eq; try done.
  eauto using callback_items_other.
Qed.

Local Ltac not_metadata :=
  let H := fresh in
  unfold metadata_field_names; intros H;
  repeat (apply elem_of_cons in H as [H|H]; [discriminate H|]);
  by apply elem_of_nil in H.

(** Every way through [mpesa_callback]. *)
Lemma mpesa_callback_cases env request w :
  let out := mpesa_callback rt env request w in
  (exists desc, out = (Ok (ack 1 desc), w)) \/
  (exists c id old status,
      callback_extract request = Ok c /\
      cb_checkout_request_id c = VStr id /\
      db w !! id = Some old /\
      out.1 = Ok (ack 0 "Callback processed successfully") /\
      stored_field out.2 id "callback_received" = Some (VBool true) /\
      stored_field out.2 id "result_code" = Some (cb_result_code c) /\
      stored_field out.2 id "callback_timestamp" = Some (VTimestamp (server_time env)) /\
      stored_field out.2 id "status" = Some (VStr status) /\
      status ∈ final_statuses).
Proof.
  cbv zeta. unfold mpesa_callback, try_except. rewrite mpesa_callback_body_unfold.
  destruct (callback_extract request) as [c|e] eqn:Hc; [|eauto].
  destruct (truthy (cb_checkout_request_id c)) eqn:Htruthy; [|eauto].
  destruct (document env (cb_checkout_request_id c)) as [ref|e] eqn:Hdoc; [|eauto].
  destruct (callback_update rt c) as [upd|e] eqn:Hupd; [|eauto].
  destruct (db w !! ref) as [old|] eqn:Hold; [|eauto].
  right.
  assert (cb_checkout_request_id c = VStr ref) as Hid.
  { destruct (cb_checkout_request_id c); simpl in *; by simplify_eq. }
  exists c, ref, old,
    (if py_eq_int (cb_result_code c) 0 then "completed"
     else callback_failure_status (cb_result_code c)).
  repeat (split; [done|]).
  unfold stored_field. simpl. rewrite lookup_insert_eq, !lookup_resolve_union.
  rewrite !(callback_update_base c upd _ Hupd) by not_metadata.
  repeat (split; [reflexivity|]).
  destruct (py_eq_int (cb_result_code c) 0).
  - unfold final_statuses. by repeat constructor.
  - apply callback_failure_status_final.
Qed.

(** What the handler did, read off its acknowledgment: with code 1 the world
    is exactly as it was; with code 0 the payload named a stored record by a
    string id, and that record now has [callback_received] true, the
    payload's result code, the callback time, and a final status (never
    "pending"). *)
Theorem mpesa_callback_acknowledged env request w :
  let out := mpesa_callback rt env request w in
  (exists desc, out = (Ok (ack 1 desc), w)) \/
  (exists c id old status,
      callback_extract request = Ok c /\
      cb_checkout_request_id c = VStr id /\
      db w !! id = Some old /\
      out.1 = Ok (ack 0 "Callback processed successfully") /\
      stored_field out.2 id "callback_received" = Some (VBool true) /\
      stored_field out.2 id "result_code" = Some (cb_result_code c) /\
      stored_field out.2 id "callback_timestamp" = Some (VTimestamp (server_time env)) /\
      stored_field out.2 id "status" = Some (VStr status) /\
      status ∈ final_statuses).
Proof. exact (mpesa_callback_cases env request w). Qed.

(** A callback sends nothing to the gateway; it changes no record but the
    one its checkout id names; and in no record does it change a field that
    the initiation or a status query wrote, the status apart. *)
Theorem mpesa_callback_frame env request w :
  let out := mpesa_callback rt env request w in
  calls out.2 = calls w /\
  (forall id,
      db out.2 !! id = db w !! id \/
      exists c, callback_extract request = Ok c /\ cb_checkout_request_id c = VStr id) /\
  (forall id,
      Forall (fun k => stored_field out.2 id k = stored_field w id k)
             (creation_fields ++ query_only_fields)).
Proof.
  cbv zeta. unfold mpesa_callback, try_except. rewrite mpesa_callback_body_unfold.
  assert (forall id, Forall (fun k => stored_field w id k = stored_field w id k)
                            (creation_fields ++ query_only_fields)) as Hrefl.
  { intros id. apply Forall_forall. done. }
  destruct (callback_extract request) as [c|e] eqn:Hc; [|by eauto].
  destruct (truthy (cb_checkout_request_id c)) eqn:Htruthy; [|by eauto].
  destruct (document env (cb_checkout_request_id c)) as [ref|e] eqn:Hdoc; [|by eauto].
  destruct (callback_update rt c) as [upd|e] eqn:Hupd; [|by eauto].
  destruct (db w !! ref) as [old|] eqn:Hold; [|by eauto].
  assert (cb_checkout_request_id c = VStr ref) as Hid.
  { destruct (cb_checkout_request_id c); simpl in *; by simplify_eq. }
  simpl. split; [done|]. split.
  - intros id. destruct (decide (ref = id)) as [<-|Hne]; [eauto|].
    left. by rewrite lookup_insert_ne.
  - intros id. unfold stored_field. simpl.
    destruct (decide (ref = id)) as [<-|Hne].
    2: { rewrite lookup_insert_ne by done. apply Forall_forall. done. }
    rewrite lookup_insert_eq, Hold.
    unfold creation_fields, query_only_fields. simpl.
    repeat (constructor;
            [rewrite lookup_resolve_union,
               (callback_update_base c upd _ Hupd) by not_metadata; reflexivity|]).
    constructor.
Qed.

End CallbackOutcome.

(** ** More on the status query *)

Section CheckStatusOutcome.

Variable rt : runtime.

(** The answer from the store. *)
Lemma check_transaction_status_stored env request w d :
  db w !! checkout_request_id request = Some d ->
  truthy (dget d "callback_received" (VBool false)) = true ->
  check_transaction_status rt env request w =
    (Ok {| success := true;
           message := "Transaction status retrieved from database";
           data := Some
             [("checkout_request_id", VStr (checkout_request_id request));
              ("status", dget d "status" VNone);
              ("result_code", dget d "result_code" VNone);
              ("result_description", dget d "result_description" VNone);
              ("receipt_number", dget d "mpesa_receipt_number" VNone);
              ("amount", dget d "confirmed_amount" (dget d "amount" VNone));
              ("phone_number",
               dget d "confirmed_phone_number" (dget d "phone_number" VNone));
              ("transaction_date", dget d "transaction_date" VNone)] |}, w).
Proof.
  intros Hd Hrecv.
  unfold check_transaction_status, try_except, check_transaction_status_body.
  unfold mbind, M_bind, doc_get. rewrite Hd, Hrecv. reflexivity.
Qed.

Local Ltac failed E :=
  left; unfold raise in E; simpl in E; simplify_eq; split; [eauto|done].

(** Every way through [check_transaction_status]. *)
Lemma check_transaction_status_cases env request w r w' :
  let id := checkout_request_id request in
  check_transaction_status rt env request w = (r, w') ->
  ((exists detail, r = Raise (HTTPException 500 detail)) /\ db w' = db w) \/
  (exists d, db w !! id = Some d /\
             truthy (dget d "callback_received" (VBool false)) = true /\
             (exists response, r = Ok response) /\ w' = w) \/
  (exists d code desc,
      db w !! id = Some d /\
      truthy (dget d "callback_received" (VBool false)) = false /\
      r = Ok {| success := true;
                message := "Transaction status retrieved from M-Pesa API";
                data := Some
                  [("checkout_request_id", VStr id);
                   ("status", VStr (query_status code));
                   ("result_code", code);
                   ("result_description", desc);
                   ("amount", dget d "amount" VNone);
                   ("phone_number", dget d "phone_number" VNone)] |} /\
      w' = {| db := <[id := resolve_timestamps (server_time env)
                              (<["status" := Val (VStr (query_status code))]>
                                 (list_to_map
                                    [("query_result_code", Val code);
                                     ("query_result_description", Val desc);
                                     ("last_queried", SERVER_TIMESTAMP)])) ∪ d]> (db w);
              calls := calls w ++ [AuthGet; QueryPost id] |}).
Proof.
  cbv zeta. intros E.
  destruct (db w !! checkout_request_id request) as [d|] eqn:Hd.
  2: { unfold check_transaction_status, try_except, check_transaction_status_body,
         mbind, M_bind, doc_get in E. rewrite Hd in E. failed E. }
  destruct (truthy (dget d "callback_received" (VBool false))) eqn:Hrecv.
  { rewrite (check_transaction_status_stored env request w d Hd Hrecv) in E.
    right. left. exists d. simplify_eq. eauto. }
  unfold check_transaction_status, try_except, check_transaction_status_body in E.
  unfold mbind at 1, M_bind at 1, doc_get at 1 in E. rewrite Hd, Hrecv in E.
  destruct (negb (truthy (dget d "merchant_request_id" VNone))); [failed E|].
  unfold mbind, M_bind in E.
  pose proof (get_access_token_db rt env w) as Hdb.
  destruct (get_access_token rt env w) as [[tok|e] w1] eqn:Htok; simpl in Hdb.
  2: { destruct e; failed E. }
  apply get_access_token_ok in Htok as ->.
  unfold upstream, lift, doc_update, ret, raise in E. simpl in E.
  destruct (query_reply env) as [msg|result]; [failed E|].
  destruct (py_get result "ResultCode" VNone) as [code|e]; simpl in E.
  2: { destruct e; failed E. }
  destruct (py_get result "ResultDesc" VNone) as [desc|e]; simpl in E.
  2: { destruct e; failed E. }
  rewrite Hd in E. simpl in E.
  right. right. exists d, code, desc. simplify_eq.
  rewrite <- app_assoc. done.
Qed.

Lemma query_status_final code : query_status code ∈ final_statuses.
Proof.
  unfold query_status, final_statuses.
  repeat case_match; by repeat constructor.
Qed.

(** When [check_transaction_status] fails, whatever the cause (an unknown
    id, a record without merchant id, missing configuration, the token, the
    gateway's answer), what it raises is an [HTTPException] with status 500,
    and the store is as it was. *)
Theorem check_transaction_status_failure env request w :
  let out := check_transaction_status rt env request w in
  match out.1 with
  | Raise e => (exists detail, e = HTTPException 500 detail) /\ db out.2 = db w
  | Ok _ => True
  end.
Proof.
  cbv zeta.
  destruct (check_transaction_status_cases env request w _ _ (surjective_pairing _))
    as [[[detail ->] Hdb]|[(d & _ & _ & [response ->] & _)|(d & code & desc & _ & _ & -> & _)]];
    eauto.
Qed.

(** A status query changes no record but the one asked about; in no record
    does it change a field that the initiation or a callback wrote, the
    status apart; and the status of the record asked about is afterwards
    what it was or a final one: a query never sets a record to pending. *)
Theorem check_transaction_status_frame env request w :
  let out := check_transaction_status rt env request w in
  let id := checkout_request_id request in
  (forall id', id' <> id -> db out.2 !! id' = db w !! id') /\
  (forall id',
      Forall (fun k => stored_field out.2 id' k = stored_field w id' k)
             (creation_fields ++ callback_only_fields)) /\
  (stored_field out.2 id "status" = stored_field w id "status" \/
   exists status, status ∈ final_statuses /\
                  stored_field out.2 id "status" = Some (VStr status)).
Proof.
  cbv zeta.
  destruct (check_transaction_status_cases env request w _ _ (surjective_pairing _))
    as [[_ Hdb]|[(d & _ & _ & _ & Hw)|(d & code & desc & Hd & _ & _ & Hw)]].
  - unfold stored_field. rewrite Hdb. split; [done|]. split; [|by left].
    intros id'. by apply Forall_forall.
  - rewrite Hw. split; [done|]. split; [|by left].
    intros id'. by apply Forall_forall.
  - rewrite Hw. unfold stored_field. simpl. split; [|split].
    + intros id' Hne. by rewrite lookup_insert_ne.
    + intros id'. destruct (decide (checkout_request_id request = id')) as [<-|Hne].
      2: { rewrite lookup_insert_ne by done. by apply Forall_forall. }
      rewrite lookup_insert_eq, Hd.
      unfold creation_fields, callback_only_fields. simpl.
      repeat (constructor; [by rewrite lookup_resolve_union|]).
      constructor.
    + right. exists (query_status code). split; [apply query_status_final|].
      by rewrite lookup_insert_eq, lookup_resolve_union.
Qed.

(** Once a callback for a record has been acknowledged with code 0, a status
    query for that record, in whatever environment, is answered from the
    store: it sends nothing to the gateway, writes nothing, and reports the
    status and the result code the callback stored. *)
Theorem check_transaction_status_after_callback env env' request w c id :
  callback_extract request = Ok c ->
  cb_checkout_request_id c = VStr id ->
  (mpesa_callback rt env request w).1 = Ok (ack 0 "Callback processed successfully") ->
  let w1 := (mpesa_callback rt env request w).2 in
  let out := check_transaction_status rt env' {| checkout_request_id := id |} w1 in
  out.2 = w1 /\
  exists response entries,
    out.1 = Ok response /\
    message response = "Transaction status retrieved from database" /\
    data response = Some entries /\
    assoc "result_code" entries = Some (cb_result_code c) /\
    exists status,
      status ∈ final_statuses /\
      stored_field w1 id "status" = Some (VStr status) /\
      assoc "status" entries = Some (VStr status).
Proof.
  intros Hc Hid Hack. cbv zeta.
  destruct (mpesa_callback_cases rt env request w)
    as [[desc Hout]|(c' & id' & old & status & Hc' & Hid' & _ & _ & Hrecv & Hcode & _
                     & Hstatus & Hfinal)].
  { rewrite Hout in Hack. discriminate Hack. }
  assert (c' = c) as -> by congruence. assert (id' = id) as -> by congruence.
  unfold stored_field in *.
  destruct (db (mpesa_callback rt env request w).2 !! id) as [d|] eqn:Hd; [|discriminate].
  rewrite (check_transaction_status_stored env' {| checkout_request_id := id |} _ d Hd)
    by (unfold dget; by rewrite Hrecv).
  split; [reflexivity|]. eexists _, _. split; [reflexivity|]. simpl.
  split; [reflexivity|]. split; [reflexivity|].
  unfold dget. rewrite Hstatus, Hcode. split; [reflexivity|].
  by exists status.
Qed.

End CheckStatusOutcome.


(** ** Reading transactions back *)

Lemma assoc_elem_of (l : list (string * value)) k v :
  NoDup l.*1 -> (k, v) ∈ l -> assoc k l = Some v.
Proof.
  induction l as [|[k' v'] l IH]; simpl; intros Hnd Hin.
  - by apply elem_of_nil in Hin.
  - apply NoDup_cons in Hnd as [Hk' Hnd].
    apply elem_of_cons in Hin as [Heq|Hin].
    + simplify_eq. by rewrite String.eqb_refl.
    + destruct (String.eqb_spec k k') as [->|Hne]; [|by apply IH].
      exfalso. apply Hk'. apply list_elem_of_fmap. by exists (k', v).
Qed.

Lemma assoc_not_elem_of (l : list (string * value)) k :
  k ∉ l.*1 -> assoc k l = None.
Proof.
  induction l as [|[k' v'] l IH]; simpl; intros Hk; [done|].
  apply not_elem_of_cons in Hk as [Hne Hk].
  destruct (String.eqb_spec k k') as [->|_]; [done|]. by apply IH.
Qed.

(** A stored document, listed as a dict, is looked up as in the store. *)
Lemma assoc_map_to_list (m : gmap string value) k :
  assoc k (map_to_list m) = m !! k.
Proof.
  destruct (m !! k) as [v|] eqn:Hk.
  - apply assoc_elem_of; [apply NoDup_fst_map_to_list|].
    by apply elem_of_map_to_list.
  - apply assoc_not_elem_of. intros Hin.
    apply list_elem_of_fmap in Hin as ([k' v] & -> & Hin).
    apply elem_of_map_to_list in Hin. simpl in *. congruence.
Qed.

Section Reading.

Variable rt : runtime.
Variable isoformat : Z -> string.
Variable stream :
  list query_op -> gmap string (gmap string value) ->
  result (list (string * gmap string value)).

Lemma isoformat_field_ok key d :
  time_ok (d !! key) = true ->
  exists d', isoformat_field isoformat key d = Ok d' /\
             forall k, d' !! k = if decide (k = key)
                                 then isoformat_value isoformat <$> d !! k
                                 else d !! k.
Proof.
  unfold isoformat_field, time_ok. intros Hok.
  destruct (d !! key) as [v|] eqn:Hv.
  2: { exists d. split; [reflexivity|]. intros k. case_decide; [|done].
       subst. by rewrite Hv. }
  destruct v;
    try (match goal with
         | |- context [truthy ?x] => change (negb (truthy x) = true) in Hok
         end;
         apply negb_true_iff in Hok; rewrite Hok; exists d; split; [reflexivity|];
         intros k; case_decide; [|done]; subst; by rewrite Hv).
  simpl. eexists. split; [reflexivity|]. intros k. case_decide.
  - subst. by rewrite lookup_insert_eq, Hv.
  - by rewrite lookup_insert_ne.
Qed.

Lemma isoformat_field_bad key d :
  time_ok (d !! key) = false -> isoformat_field isoformat key d = Raise AttributeError.
Proof.
  unfold isoformat_field, time_ok. destruct (d !! key) as [v|]; [|discriminate].
  destruct v; simpl; try discriminate; intros H%negb_false_iff; by rewrite ?H.
Qed.

Lemma times_ok_inv d :
  times_ok d = true ->
  time_ok (d !! "timestamp") = true /\ time_ok (d !! "callback_timestamp") = true /\
  time_ok (d !! "last_queried") = true.
Proof.
  unfold times_ok, time_fields. simpl. rewrite andb_true_r.
  intros [H1 [H2 H3]%andb_prop]%andb_prop. done.
Qed.

Lemma isoformat_fields_ok d :
  times_ok d = true ->
  exists d', isoformat_fields isoformat d = Ok d' /\
             forall k, d' !! k = shown isoformat d k.
Proof.
  intros (H1 & H2 & H3)%times_ok_inv. unfold isoformat_fields, mbind, result_bind.
  destruct (isoformat_field_ok "timestamp" d H1) as (d1 & -> & Hd1).
  assert (time_ok (d1 !! "callback_timestamp") = true) as H2' by (by rewrite Hd1).
  destruct (isoformat_field_ok "callback_timestamp" d1 H2') as (d2 & -> & Hd2).
  assert (time_ok (d2 !! "last_queried") = true) as H3' by (by rewrite Hd2, Hd1).
  destruct (isoformat_field_ok "last_queried" d2 H3') as (d3 & -> & Hd3).
  exists d3. split; [reflexivity|]. intros k. rewrite Hd3, Hd2, Hd1.
  unfold shown.
  destruct (decide (k ∈ time_fields)) as [Hin|Hnin].
  - rewrite bool_decide_eq_true_2 by done. unfold time_fields in Hin.
    repeat (apply elem_of_cons in Hin as [->|Hin]; [by repeat case_decide|]).
    by apply elem_of_nil in Hin.
  - rewrite bool_decide_eq_false_2 by done.
    repeat case_decide; subst; try done; exfalso; apply Hnin; repeat constructor.
Qed.

Lemma isoformat_fields_bad d :
  times_ok d = false -> isoformat_fields isoformat d = Raise AttributeError.
Proof.
  unfold times_ok, time_fields. simpl. rewrite andb_true_r.
  unfold isoformat_fields, mbind, result_bind.
  destruct (time_ok (d !! "timestamp")) eqn:H1; simpl.
  2: { intros _. by rewrite isoformat_field_bad. }
  destruct (isoformat_field_ok "timestamp" d H1) as (d1 & -> & Hd1).
  destruct (time_ok (d !! "callback_timestamp")) eqn:H2; simpl.
  2: { intros _. rewrite isoformat_field_bad; [done|]. by rewrite Hd1. }
  assert (time_ok (d1 !! "callback_timestamp") = true) as H2' by (by rewrite Hd1).
  destruct (isoformat_field_ok "callback_timestamp" d1 H2') as (d2 & -> & Hd2).
  intros H3. rewrite isoformat_field_bad; [done|]. by rewrite Hd2, Hd1.
Qed.

(** [get_transaction] writes nothing and sends nothing.  For an id the store
    does not hold it raises a 500 that wraps its own 404.  For a stored
    record whose time fields hold times (or false values) it returns every
    field as stored, the time fields as ISO text.  For a record with another
    true value in a time field it raises a 500. *)
Theorem get_transaction_outcome id w :
  let out := get_transaction rt isoformat id w in
  out.2 = w /\
  match db w !! id with
  | None =>
      out.1 = Raise (HTTPException 500
                       ("An error occurred while retrieving the transaction: " +:+
                        exc_str rt (HTTPException 404 "Transaction not found")))
  | Some d =>
      if times_ok d then
        exists data,
          out.1 = Ok {| success := true;
                        message := "Transaction retrieved successfully";
                        data := Some data |} /\
          forall k, assoc k data = shown isoformat d k
      else
        out.1 = Raise (HTTPException 500
                         ("An error occurred while retrieving the transaction: " +:+
                          exc_str rt AttributeError))
  end.
Proof.
  cbv zeta. unfold get_transaction, try_except, get_transaction_body.
  unfold mbind, M_bind, doc_get, lift, ret, raise.
  destruct (db w !! id) as [d|]; [|done].
  destruct (times_ok d) eqn:Hok.
  - destruct (isoformat_fields_ok d Hok) as (d' & -> & Hd'). simpl.
    split; [done|]. eexists. split; [reflexivity|].
    intros k. by rewrite assoc_map_to_list.
  - by rewrite (isoformat_fields_bad d Hok).
Qed.

Lemma query_filter_nonempty field s normalize :
  s <> "" -> query_filter field (Some s) normalize = [Where field (VStr (normalize s))].
Proof. by destruct s. Qed.

(** Filtering by a phone number, in whatever spelling, is filtering by its
    normalized form, and an empty filter is no filter. *)
Theorem get_all_transactions_filters limit status phone_number c r w :
  get_all_transactions rt isoformat stream limit status (Some (String c r)) w =
  get_all_transactions rt isoformat stream limit status
    (Some (format_phone_number (String c r))) w /\
  get_all_transactions rt isoformat stream limit status (Some "") w =
  get_all_transactions rt isoformat stream limit status None w /\
  get_all_transactions rt isoformat stream limit (Some "") phone_number w =
  get_all_transactions rt isoformat stream limit None phone_number w.
Proof.
  assert (transactions_query limit status (Some (String c r)) =
          transactions_query limit status (Some (format_phone_number (String c r))))
    as Hq.
  { unfold transactions_query.
    pose proof (format_phone_number_prefix (String c r)) as Hp.
    destruct (startswith_254_inv _ Hp) as [x Hx].
    rewrite (query_filter_nonempty _ (String c r)) by done.
    rewrite (query_filter_nonempty _ (format_phone_number (String c r)))
      by (by rewrite Hx).
    by rewrite (format_phone_number_fixed _
                  (str_isdigit_forall _ (format_phone_number_isdigit (String c r))) Hp). }
  split; [|split; reflexivity].
  unfold get_all_transactions, try_except, get_all_transactions_body. by rewrite Hq.
Qed.

Lemma times_ok_id id d : times_ok (<["id" := VStr id]> d) = times_ok d.
Proof.
  unfold times_ok, time_fields. simpl. by rewrite !lookup_insert_ne.
Qed.

Lemma listed_transactions_ok docs :
  forallb (fun doc => times_ok doc.2) docs = true ->
  exists ts, listed_transactions isoformat docs = Ok ts /\ Forall2 (lists isoformat) docs ts.
Proof.
  induction docs as [|[id d] docs IH]; simpl; intros Hok.
  - exists []. split; [done|]. constructor.
  - apply andb_prop in Hok as [Hd Hdocs]. simpl in Hd.
    destruct (IH Hdocs) as (ts & Hts & Hall).
    unfold listed_transaction, mbind, result_bind. simpl.
    rewrite <- (times_ok_id id) in Hd.
    destruct (isoformat_fields_ok _ Hd) as (d' & -> & Hd'). rewrite Hts.
    eexists. split; [reflexivity|]. constructor; [|done].
    eexists. split; [reflexivity|]. simpl. split.
    + rewrite assoc_map_to_list, Hd'. unfold shown. simpl.
      by rewrite lookup_insert_eq.
    + intros k Hk. rewrite assoc_map_to_list, Hd'. unfold shown.
      by rewrite lookup_insert_ne.
Qed.

Lemma listed_transactions_bad docs :
  forallb (fun doc => times_ok doc.2) docs = false ->
  listed_transactions isoformat docs = Raise AttributeError.
Proof.
  induction docs as [|[id d] docs IH]; simpl; intros Hok; [discriminate|].
  unfold listed_transaction, mbind, result_bind. simpl.
  destruct (times_ok d) eqn:Hd; simpl in Hok.
  - rewrite <- (times_ok_id id) in Hd.
    destruct (isoformat_fields_ok _ Hd) as (d' & -> & _). by rewrite IH.
  - rewrite <- (times_ok_id id) in Hd. by rewrite isoformat_fields_bad.
Qed.

(** [get_all_transactions] writes nothing.  When the query engine raises,
    or a selected record has a true value that is not a time in a time
    field, it raises a 500.  Otherwise it lists the selected records in the
    engine's order, one entry each: the entry's [id] is the document id
    (whatever the record held under that name), its other fields are the
    record's, the time fields as ISO text; and the message counts them. *)
Theorem get_all_transactions_outcome limit status phone_number w :
  let out := get_all_transactions rt isoformat stream limit status phone_number w in
  out.2 = w /\
  match stream (transactions_query limit status phone_number) (db w) with
  | Raise e =>
      out.1 = Raise (HTTPException 500
                       ("An error occurred while retrieving transactions: " +:+
                        exc_str rt e))
  | Ok docs =>
      if forallb (fun doc => times_ok doc.2) docs then
        exists ts,
          out.1 = Ok {| success := true;
                        message := "Retrieved " +:+ pretty (Z.of_nat (length docs))
                                   +:+ " transactions";
                        data := Some [("transactions", VList ts)] |} /\
          Forall2 (lists isoformat) docs ts
      else
        out.1 = Raise (HTTPException 500
                         ("An error occurred while retrieving transactions: " +:+
                          exc_str rt AttributeError))
  end.
Proof.
  cbv zeta. unfold get_all_transactions, try_except, get_all_transactions_body.
  unfold mbind, result_bind, raise.
  destruct (stream _ (db w)) as [docs|e]; [|done].
  destruct (forallb (fun doc => times_ok doc.2) docs) eqn:Hok.
  - destruct (listed_transactions_ok docs Hok) as (ts & -> & Hall). simpl.
    split; [done|]. exists ts. split; [|done].
    by rewrite (Forall2_length _ _ _ Hall).
  - by rewrite (listed_transactions_bad docs Hok).
Qed.

Lemma get_transaction_world id w : (get_transaction rt isoformat id w).2 = w.
Proof.
  unfold get_transaction, try_except, get_transaction_body.
  unfold mbind, M_bind, doc_get, lift, ret, raise.
  destruct (db w !! id) as [d|]; [|done].
  by destruct (isoformat_fields isoformat d).
Qed.

Lemma get_all_transactions_world limit status phone_number w :
  (get_all_transactions rt isoformat stream limit status phone_number w).2 = w.
Proof.
  unfold get_all_transactions, try_except, get_all_transactions_body.
  unfold mbind, result_bind, raise.
  destruct (stream _ (db w)) as [docs|e]; [|done].
  by destruct (listed_transactions isoformat docs).
Qed.

End Reading.

(** ** The store the handlers build *)

Lemma times_ok_intro d :
  time_ok (d !! "timestamp") = true ->
  time_ok (d !! "callback_timestamp") = true ->
  time_ok (d !! "last_queried") = true ->
  times_ok d = true.
Proof. unfold times_ok, time_fields. simpl. by intros -> -> ->. Qed.

Lemma final_not_pending status :
  status ∈ final_statuses -> Some (VStr status) <> Some (VStr "pending").
Proof.
  unfold final_statuses. intros Hin Heq. simplify_eq.
  repeat (apply elem_of_cons in Hin as [Hin|Hin]; [discriminate Hin|]).
  by apply elem_of_nil in Hin.
Qed.

Lemma record_ok_pending env request a cid mid :
  0 < a -> phone_ok (format_phone_number (phone_number request)) = true ->
  record_ok (pending_data env request a cid mid).
Proof.
  intros Ha Hphone. unfold record_ok.
  split; [|split; [|split; [|split]]].
  - exists "pending". split; [reflexivity|]. unfold canonical_statuses. by constructor.
  - exists a. by split.
  - eexists. by split.
  - reflexivity.
  - by left.
Qed.

Section Served.

Variable rt : runtime.
Variable isoformat : Z -> string.
Variable stream :
  list query_op -> gmap string (gmap string value) ->
  result (list (string * gmap string value)).

Lemma store_ok_insert w w' id d :
  store_ok w -> record_ok d -> db w' = <[id := d]> (db w) -> store_ok w'.
Proof.
  intros Hw Hd Hdb id' d'. rewrite Hdb.
  destruct (decide (id = id')) as [<-|Hne].
  - rewrite lookup_insert_eq. by intros [= <-].
  - rewrite lookup_insert_ne by done. apply Hw.
Qed.

Lemma store_ok_same w w' : store_ok w -> db w' = db w -> store_ok w'.
Proof. unfold store_ok. by intros Hw ->. Qed.

Lemma initiate_stk_push_store_ok env request w :
  store_ok w -> store_ok (initiate_stk_push rt env request w).2.
Proof.
  intros Hw.
  destruct (initiate_stk_push_cases rt env request w _ _ (surjective_pairing _))
    as [[_ Hdb]|(a & ref & cid & mid & _ & Ha & Hphone & _ & _ & Hw')].
  - eauto using store_ok_same.
  - rewrite Hw'. eapply store_ok_insert; [done| |reflexivity].
    by apply record_ok_pending.
Qed.

Local Ltac not_metadata :=
  let H := fresh in
  unfold metadata_field_names; intros H;
  repeat (apply elem_of_cons in H as [H|H]; [discriminate H|]);
  by apply elem_of_nil in H.

Lemma callback_record_ok env c upd old :
  callback_update rt c = Ok upd -> record_ok old ->
  record_ok (resolve_timestamps (server_time env) upd ∪ old).
Proof.
  intros Hupd (Hstatus & Hamount & Hphone & Htimes & _).
  apply times_ok_inv in Htimes as (Ht1 & Ht2 & Ht3).
  assert (exists status,
             (resolve_timestamps (server_time env) upd ∪ old) !! "status"
             = Some (VStr status) /\ status ∈ final_statuses) as (status & Hs & Hfinal).
  { eexists. split.
    - rewrite lookup_resolve_union, (callback_update_base rt c upd _ Hupd) by not_metadata.
      reflexivity.
    - destruct (py_eq_int (cb_result_code c) 0).
      + unfold final_statuses. by repeat constructor.
      + apply callback_failure_status_final. }
  unfold record_ok. split; [|split; [|split; [|split]]].
  - exists status. split; [done|]. unfold canonical_statuses. apply elem_of_cons. by right.
  - rewrite lookup_resolve_union, (callback_update_base rt c upd _ Hupd) by not_metadata.
    exact Hamount.
  - rewrite lookup_resolve_union, (callback_update_base rt c upd _ Hupd) by not_metadata.
    exact Hphone.
  - apply times_ok_intro;
      rewrite lookup_resolve_union, (callback_update_base rt c upd _ Hupd) by not_metadata;
      done.
  - right. rewrite Hs. by apply final_not_pending.
Qed.

Lemma mpesa_callback_store_ok env request w :
  store_ok w -> store_ok (mpesa_callback rt env request w).2.
Proof.
  intros Hw. unfold mpesa_callback, try_except. rewrite mpesa_callback_body_unfold.
  destruct (callback_extract request) as [c|e] eqn:Hc; [|done].
  destruct (truthy (cb_checkout_request_id c)) eqn:Htruthy; [|done].
  destruct (document env (cb_checkout_request_id c)) as [ref|e] eqn:Hdoc; [|done].
  destruct (callback_update rt c) as [upd|e] eqn:Hupd; [|done].
  destruct (db w !! ref) as [old|] eqn:Hold; [|done].
  eapply store_ok_insert; [done| |reflexivity].
  eapply callback_record_ok; eauto.
Qed.

Lemma query_record_ok env code desc old :
  record_ok old ->
  record_ok (resolve_timestamps (server_time env)
               (<["status" := Val (VStr (query_status code))]>
                  (list_to_map
                     [("query_result_code", Val code);
                      ("query_result_description", Val desc);
                      ("last_queried", SERVER_TIMESTAMP)])) ∪ old).
Proof.
  intros (Hstatus & Hamount & Hphone & Htimes & _).
  apply times_ok_inv in Htimes as (Ht1 & Ht2 & Ht3).
  pose proof (query_status_final code) as Hfinal.
  unfold record_ok. split; [|split; [|split; [|split]]].
  - exists (query_status code). split; [by rewrite lookup_resolve_union|].
    unfold canonical_statuses. apply elem_of_cons. by right.
  - by rewrite lookup_resolve_union.
  - by rewrite lookup_resolve_union.
  - apply times_ok_intro; by rewrite lookup_resolve_union.
  - right. rewrite lookup_resolve_union. by apply final_not_pending.
Qed.

Lemma check_transaction_status_store_ok env request w :
  store_ok w -> store_ok (check_transaction_status rt env request w).2.
Proof.
  intros Hw.
  destruct (check_transaction_status_cases rt env request w _ _ (surjective_pairing _))
    as [[_ Hdb]|[(d & _ & _ & _ & Hw')|(d & code & desc & Hd & _ & _ & Hw')]].
  - eauto using store_ok_same.
  - by rewrite Hw'.
  - rewrite Hw'. eapply store_ok_insert; [done| |reflexivity].
    apply query_record_ok. eauto.
Qed.

Lemma handle_store_ok env call w :
  store_ok w -> store_ok (handle rt isoformat stream env call w).
Proof.
  intros Hw. destruct call; simpl.
  - by apply initiate_stk_push_store_ok.
  - by apply mpesa_callback_store_ok.
  - by apply check_transaction_status_store_ok.
  - by rewrite get_transaction_world.
  - by rewrite get_all_transactions_world.
Qed.

Lemma serve_store_ok served : forall w,
  store_ok w -> store_ok (serve rt isoformat stream served w).
Proof.
  induction served as [|[env call] rest IH]; simpl; intros w Hw; [done|].
  apply IH. by apply handle_store_ok.
Qed.

Lemma store_ok_empty : store_ok empty_world.
Proof. intros id d. simpl. by rewrite lookup_empty. Qed.

(** Whatever calls were served since the store was empty, in whatever
    environments and with whatever outcomes, every stored record has one of
    the six canonical statuses, a positive integer amount, a phone number of
    twelve digits, times (or nothing) in its time fields, and, once its
    callback was received, a status that is not pending. *)
Theorem served_records_ok served id :
  match db (serve rt isoformat stream served empty_world) !! id with
  | Some d => record_ok d
  | None => True
  end.
Proof.
  destruct (db _ !! id) as [d|] eqn:Hd; [|done].
  exact (serve_store_ok served empty_world store_ok_empty id d Hd).
Qed.

Lemma get_transaction_ok id w d :
  db w !! id = Some d -> times_ok d = true ->
  exists entries,
    get_transaction rt isoformat id w =
      (Ok {| success := true;
             message := "Transaction retrieved successfully";
             data := Some entries |}, w) /\
    forall k, assoc k entries = shown isoformat d k.
Proof.
  intros Hd Hok. unfold get_transaction, try_except, get_transaction_body.
  unfold mbind, M_bind, doc_get, lift, ret, raise. rewrite Hd.
  destruct (isoformat_fields_ok isoformat d Hok) as (d' & -> & Hd'). simpl.
  eexists. split; [reflexivity|].
  intros k. by rewrite assoc_map_to_list.
Qed.

(** Whatever calls were served since the store was empty, every record in
    the store can be read back: [get_transaction] on a stored id succeeds,
    and shows the record's fields, the time fields as ISO text. *)
Theorem served_get_transaction served id :
  let w := serve rt isoformat stream served empty_world in
  match db w !! id with
  | Some d =>
      exists entries,
        get_transaction rt isoformat id w =
          (Ok {| success := true;
                 message := "Transaction retrieved successfully";
                 data := Some entries |}, w) /\
        forall k, assoc k entries = shown isoformat d k
  | None => True
  end.
Proof.
  cbv zeta. destruct (db _ !! id) as [d|] eqn:Hd; [|done].
  apply get_transaction_ok; [done|].
  by destruct (serve_store_ok served empty_world store_ok_empty id d Hd)
    as (_ & _ & _ & Htimes & _).
Qed.

Lemma handle_dom env call w :
  match call with
  | InitiateStkPush _ => True
  | _ => dom (db (handle rt isoformat stream env call w)) = dom (db w)
  end.
Proof.
  destruct call; simpl; [done|..].
  - apply mpesa_callback_dom.
  - apply check_transaction_status_dom.
  - by rewrite get_transaction_world.
  - by rewrite get_all_transactions_world.
Qed.

Lemma handle_keeps env call w id d :
  db w !! id = Some d -> exists d', db (handle rt isoformat stream env call w) !! id = Some d'.
Proof.
  intros Hd. destruct call.
  - simpl.
    destruct (initiate_stk_push_cases rt env request w _ _ (surjective_pairing _))
      as [[_ Hdb]|(a & ref & cid & mid & _ & _ & _ & _ & _ & Hw')].
    + rewrite Hdb. eauto.
    + rewrite Hw'. simpl. destruct (decide (ref = id)) as [->|Hne].
      * rewrite lookup_insert_eq. eauto.
      * rewrite lookup_insert_ne by done. eauto.
  - pose proof (handle_dom env (MpesaCallback request) w) as Hdom. simpl in Hdom |- *.
    apply (elem_of_dom (D:=gset string)). rewrite Hdom. apply elem_of_dom. eauto.
  - pose proof (handle_dom env (CheckTransactionStatus request) w) as Hdom.
    simpl in Hdom |- *.
    apply (elem_of_dom (D:=gset string)). rewrite Hdom. apply elem_of_dom. eauto.
  - simpl. rewrite get_transaction_world. eauto.
  - simpl. rewrite get_all_transactions_world. eauto.
Qed.

(** No handler deletes a record: a record in the store is still there after
    any sequence of calls.  And only [initiate_stk_push] adds one: every
    other call leaves the set of stored ids as it was. *)
Theorem served_keeps_records served env call w id :
  (db w !! id = None \/
   exists d, db (serve rt isoformat stream served w) !! id = Some d) /\
  match call with
  | InitiateStkPush _ => True
  | _ => dom (db (handle rt isoformat stream env call w)) = dom (db w)
  end.
Proof.
  split; [|apply handle_dom].
  destruct (db w !! id) as [d|] eqn:Hd; [right|by left].
  revert w d Hd. induction served as [|[env' call'] rest IH]; simpl; intros w d Hd.
  - eauto.
  - destruct (handle_keeps env' call' w id d Hd) as [d' Hd']. eauto.
Qed.

End Served.

(** ** A callback and then a status query, on the pending record *)

Lemma cancelled_callback_acknowledged rt env :
  (mpesa_callback rt env cancelled_callback pending_world).1 =
  Ok (ack 0 "Callback processed successfully").
Proof.
  unfold mpesa_callback, try_except. rewrite mpesa_callback_body_unfold.
  simpl. rewrite lookup_singleton_eq. reflexivity.
Qed.

(** The cancelled push: its callback is acknowledged with code 0, and the
    status query that follows is answered from the store. *)
Lemma check_transaction_status_after_callback_witness :
  exists c,
    callback_extract cancelled_callback = Ok c /\
    cb_checkout_request_id c = VStr "ws_CO_1" /\
    cb_result_code c = VInt 1032 /\
    forall rt env env',
      (mpesa_callback rt env cancelled_callback pending_world).1 =
        Ok (ack 0 "Callback processed successfully") /\
      let w1 := (mpesa_callback rt env cancelled_callback pending_world).2 in
      let out := check_transaction_status rt env' status_request w1 in
      out.2 = w1 /\
      exists response entries,
        out.1 = Ok response /\
        message response = "Transaction status retrieved from database" /\
        data response = Some entries /\
        assoc "result_code" entries = Some (VInt 1032) /\
        exists status,
          status ∈ final_statuses /\
          stored_field w1 "ws_CO_1" "status" = Some (VStr status) /\
          assoc "status" entries = Some (VStr status).
Proof.
  eexists. split; [reflexivity|]. split; [reflexivity|]. split; [reflexivity|].
  intros rt env env'. split; [apply cancelled_callback_acknowledged|].
  exact (check_transaction_status_after_callback rt env env' cancelled_callback
           pending_world _ "ws_CO_1" eq_refl eq_refl
           (cancelled_callback_acknowledged rt env)).
Defined.
